(** * hacker-scoper: the classification-and-matching engine

    A shallow embedding of the scope matcher ([parseScopes], [isInscope],
    [isInscopeIP]), the line classifier ([parseLine]), the octet-range
    parser ([parseNmapIPRange], [parseNmapOctet]) and the misconfiguration
    detector ([isAndroidPackageName], [getCompanyScopes]) of [main.go],
    with the statements of the specification proved or refuted on it.

    Go strings are byte strings: they are [string]s here, one [ascii] per
    byte.  Go's [int] and [uint8] are [Z]; the wrap-around of [uint8]
    arithmetic is written out with [uint8].  Diagnostics written to stderr
    ([warning]) are not part of the model. *)

From Stdlib Require Import ZArith List String Ascii Bool Lia Permutation.
Import ListNotations.

Local Open Scope string_scope.
Local Open Scope list_scope.
Local Open Scope Z_scope.

(** ** Results of fallible and possibly non-returning code *)

(** [Ok] and [Err] are Go's [(value, nil)] and [(nil, err)]; [Panic] is a
    run-time panic; [OutOfFuel] says that the loops of the call were cut
    after [fuel] iterations each without having returned. *)
Inductive outcome (A : Type) : Type :=
| Ok (a : A)
| Err (e : string)
| Panic
| OutOfFuel.

Arguments Ok {A} a.
Arguments Err {A} e.
Arguments Panic {A}.
Arguments OutOfFuel {A}.

Definition bind {A B : Type} (m : outcome A) (k : A -> outcome B) : outcome B :=
  match m with
  | Ok a => k a
  | Err e => Err e
  | Panic => Panic
  | OutOfFuel => OutOfFuel
  end.

Notation "'do' x <- m ; k" := (bind m (fun x => k))
  (at level 10, x name, m at level 100, k at level 200).

(** ** Package [strings], on byte strings *)

Module strings.

Definition HasPrefix (s prefix : string) : bool := String.prefix prefix s.

(** [len(s) >= len(suffix) && s[len(s)-len(suffix):] == suffix] *)
Definition HasSuffix (s suffix : string) : bool :=
  (String.length suffix <=? String.length s)%nat &&
  String.eqb (substring (String.length s - String.length suffix)
                        (String.length suffix) s) suffix.

Fixpoint Contains (s substr : string) : bool :=
  String.prefix substr s ||
  match s with
  | EmptyString => false
  | String _ s' => Contains s' substr
  end.

(** [strings.Count(s, substr)] for a one-byte [substr]. *)
Fixpoint Count (s : string) (c : ascii) : Z :=
  match s with
  | EmptyString => 0
  | String a s' => (if Ascii.eqb a c then 1 else 0) + Count s' c
  end.

Fixpoint ContainsByte (chars : string) (c : ascii) : bool :=
  match chars with
  | EmptyString => false
  | String a chars' => Ascii.eqb a c || ContainsByte chars' c
  end.

(** [strings.ContainsAny(s, chars)] for ASCII [chars]. *)
Fixpoint ContainsAny (s chars : string) : bool :=
  match s with
  | EmptyString => false
  | String a s' => ContainsByte chars a || ContainsAny s' chars
  end.

(** [strings.Split(s, sep)] for a one-byte [sep]: never empty, the empty
    string splits into one empty field. *)
Fixpoint Split (s : string) (sep : ascii) : list string :=
  match s with
  | EmptyString => [EmptyString]
  | String a s' =>
      if Ascii.eqb a sep then EmptyString :: Split s' sep
      else match Split s' sep with
           | field :: fields => String a field :: fields
           | [] => [String a EmptyString]
           end
  end.

(** [strings.SplitN(s, sep, 2)] for a one-byte [sep]: cut at the first
    separator only. *)
Fixpoint SplitN2 (s : string) (sep : ascii) : list string :=
  match s with
  | EmptyString => [EmptyString]
  | String a s' =>
      if Ascii.eqb a sep then [EmptyString; s']
      else match SplitN2 s' sep with
           | field :: fields => String a field :: fields
           | [] => [String a EmptyString]
           end
  end.

(** [strings.Replace(s, old, new, -1)] for a one-byte [old]. *)
Fixpoint Replace (s : string) (old : ascii) (new : string) : string :=
  match s with
  | EmptyString => EmptyString
  | String a s' =>
      if Ascii.eqb a old then (new ++ Replace s' old new)%string
      else String a (Replace s' old new)
  end.

Fixpoint LastIndexByte_from (s : string) (c : ascii) (i : nat) (last : option nat)
  : option nat :=
  match s with
  | EmptyString => last
  | String a s' =>
      LastIndexByte_from s' c (S i) (if Ascii.eqb a c then Some i else last)
  end.

(** [strings.LastIndexByte(s, c)], with [None] for [-1]. *)
Definition LastIndexByte (s : string) (c : ascii) : option nat :=
  LastIndexByte_from s c 0%nat None.

(** [s[i:]] *)
Definition from (i : nat) (s : string) : string :=
  substring i (String.length s - i) s.

End strings.

(** ** Package [strconv] *)

Module strconv.

Definition digit (c : ascii) : option Z :=
  let n := Z.of_nat (nat_of_ascii c) in
  if (48 <=? n) && (n <=? 57) then Some (n - 48) else None.

Fixpoint digits (s : string) (acc : Z) : option Z :=
  match s with
  | EmptyString => Some acc
  | String c s' =>
      match digit c with
      | Some d => digits s' (acc * 10 + d)
      | None => None
      end
  end.

Definition unsigned (s : string) : option Z :=
  match s with
  | EmptyString => None
  | _ => digits s 0
  end.

(** [strconv.Atoi]: an optional sign, then one or more decimal digits, the
    value within the range of [int] (64 bits); [None] is a non-nil error. *)
Definition Atoi (s : string) : option Z :=
  let signed :=
    match s with
    | String "-" s' => option_map Z.opp (unsigned s')
    | String "+" s' => unsigned s'
    | _ => unsigned s
    end in
  match signed with
  | Some n => if (- 2 ^ 63 <=? n) && (n <=? 2 ^ 63 - 1) then Some n else None
  | None => None
  end.

End strconv.

(** ** Package [net]: addresses and networks *)

Module net.

(** [net.IP] and [net.IPMask] are byte slices. *)
Definition IP : Type := list Z.
Definition IPMask : Type := list Z.

Record IPNet : Type := { IPNet_IP : IP; Mask : IPMask }.

Definition IPv4len : nat := 4.
Definition IPv6len : nat := 16.

Definition v4InV6Prefix : list Z := [0; 0; 0; 0; 0; 0; 0; 0; 0; 0; 255; 255].

Definition bytesEqual (a b : list Z) : bool :=
  (List.length a =? List.length b)%nat &&
  forallb (fun p => fst p =? snd p) (combine a b).

(** [ip.To4()]: the 4-byte form of an IPv4 address, [None] (a nil slice)
    when [ip] is not an IPv4 address. *)
Definition To4 (ip : IP) : option IP :=
  if (List.length ip =? IPv4len)%nat then Some ip
  else if (List.length ip =? IPv6len)%nat && bytesEqual (firstn 12 ip) v4InV6Prefix
       then Some (skipn 12 ip)
       else None.

(** [ip.Equal(x)]: an IPv4 address and the same address in IPv6 form are
    equal. *)
Definition Equal (ip x : IP) : bool :=
  if (List.length ip =? List.length x)%nat then bytesEqual ip x
  else if (List.length ip =? IPv4len)%nat && (List.length x =? IPv6len)%nat
       then bytesEqual (firstn 12 x) v4InV6Prefix && bytesEqual ip (skipn 12 x)
  else if (List.length ip =? IPv6len)%nat && (List.length x =? IPv4len)%nat
       then bytesEqual (firstn 12 ip) v4InV6Prefix && bytesEqual (skipn 12 ip) x
  else false.

(** [networkNumberAndMask(n)]; the pair of nil slices is [([], [])]. *)
Definition networkNumberAndMask (n : IPNet) : IP * IPMask :=
  let ip := match To4 (IPNet_IP n) with Some ip4 => ip4 | None => IPNet_IP n end in
  if match To4 (IPNet_IP n) with
     | Some _ => false
     | None => negb (List.length ip =? IPv6len)%nat
     end
  then ([], [])
  else
    let m := Mask n in
    if (List.length m =? IPv4len)%nat then
      if negb (List.length ip =? IPv4len)%nat then ([], []) else (ip, m)
    else if (List.length m =? IPv6len)%nat then
      if (List.length ip =? IPv4len)%nat then (ip, skipn 12 m) else (ip, m)
    else ([], []).

(** [n.Contains(ip)] *)
Definition Contains (n : IPNet) (ip : IP) : bool :=
  let '(nn, m) := networkNumberAndMask n in
  let ip := match To4 ip with Some x => x | None => ip end in
  if negb (List.length ip =? List.length nn)%nat then false
  else forallb (fun p => Z.land (fst (fst p)) (snd p) =? Z.land (snd (fst p)) (snd p))
               (combine (combine nn ip) m).

End net.

(** ** Package [net/url] *)

Module url.

Record Userinfo : Type := { username : string; password : option string }.

(** The fields of [url.URL]. *)
Record URL : Type := {
  Scheme : string;
  Opaque : string;
  User : option Userinfo;
  Host : string;
  Path : string;
  RawPath : string;
  OmitHost : bool;
  ForceQuery : bool;
  RawQuery : string;
  Fragment : string;
  RawFragment : string
}.

Fixpoint allDigits (s : string) : bool :=
  match s with
  | EmptyString => true
  | String b s' =>
      let n := nat_of_ascii b in
      (48 <=? n)%nat && (n <=? 57)%nat && allDigits s'
  end.

(** [validOptionalPort(port)]: empty, or a colon followed by digits. *)
Definition validOptionalPort (port : string) : bool :=
  match port with
  | EmptyString => true
  | String c rest => Ascii.eqb c ":" && allDigits rest
  end.

(** [u.Port()]: the second component of [splitHostPort(u.Host)]. *)
Definition Port (u : URL) : string :=
  match strings.LastIndexByte (Host u) ":" with
  | Some colon =>
      if validOptionalPort (strings.from colon (Host u))
      then strings.from (S colon) (Host u)
      else EmptyString
  | None => EmptyString
  end.

End url.

(** ** The library functions the program calls without their code

    [strings.TrimSpace] (Unicode white space), package [regexp], the
    parsers of [net] and [net/url], [URL.String] and the public suffix list
    are taken as parameters: every statement below holds whatever they
    compute.  A regular expression is given by [regexp_match re pre mid
    post], which says whether [re] matches the segment [mid] of the text
    [pre ++ mid ++ post] (the context is what [^] and [$] look at). *)
Class GoLibrary : Type := {
  strings_TrimSpace : string -> string;
  Regexp : Type;
  regexp_Compile : string -> option Regexp;
  regexp_match : Regexp -> string -> string -> string -> bool;
  net_ParseIP : string -> option net.IP;
  net_ParseCIDR : string -> option net.IPNet;
  url_Parse : string -> option url.URL;
  url_String : url.URL -> string;
  publicsuffix_PublicSuffix : string -> string * bool
}.

(** All the ways of cutting [s] in two. *)
Fixpoint cuts2 (s : string) : list (string * string) :=
  (EmptyString, s) ::
  match s with
  | EmptyString => []
  | String a s' => map (fun p => (String a (fst p), snd p)) (cuts2 s')
  end.

(** All the ways of cutting [s] into three consecutive segments. *)
Definition cuts3 (s : string) : list (string * string * string) :=
  flat_map (fun p => map (fun q => (fst p, fst q, snd q)) (cuts2 (snd p))) (cuts2 s).

(** [uint8(n)] *)
Definition uint8 (n : Z) : Z := n mod 256.

(** A Go array [[4]T]. *)
Definition array4 (T : Type) : Type := (T * T * T * T)%type.

Definition get4 {T : Type} (a : array4 T) (i : nat) : T :=
  let '(a0, a1, a2, a3) := a in
  match i with
  | O => a0
  | 1%nat => a1
  | 2%nat => a2
  | _ => a3
  end.

Definition ErrInvalidFormat : string := "invalid format: not IP, CIDR, or URL".

Record NmapIPRange : Type := {
  Octets : array4 (list Z);
  Raw : string
}.

Record Scope : Type := { Scope_Scope : string; Scope_type : string }.

Record Program : Type := {
  In_scopes : list Scope;
  Out_of_scopes : list Scope;
  Name : string
}.

Record Firebounty : Type := { Pgms : list Program }.

Section Scoper.

Context {lib : GoLibrary}.

(** [re.MatchString(s)]: whether [s] contains any match of [re]. *)
Definition MatchString (re : Regexp) (s : string) : bool :=
  existsb (fun c => regexp_match re (fst (fst c)) (snd (fst c)) (snd c)) (cuts3 s).

Record URLWithIPAddressHost : Type := { rawURL : string; IPhost : net.IP }.

Record WildcardScope : Type := { scope : Regexp }.

(** The values [parseLine] returns and the matcher dispatches on: an
    [interface{}] holding one of these dynamic types. *)
Inductive value : Type :=
| ptrRegexp (re : Regexp)
| ptrWildcardScope (w : WildcardScope)
| ptrNmapIPRange (r : NmapIPRange)
| ptrIPNet (n : net.IPNet)
| ptrIP (ip : net.IP)
| str (s : string)
| ptrURL (u : url.URL)
| ptrURLWithIPAddressHost (x : URLWithIPAddressHost).

Definition removePortFromHost (myurl : url.URL) : string :=
  let portLength := String.length (url.Port myurl) in
  if negb (portLength =? 0)%nat then
    let hostLength := String.length (url.Host myurl) in
    substring 0 (hostLength - portLength - 1) (url.Host myurl)
  else url.Host myurl.

(** *** The octet-range parser *)

Definition isNmapIPRange (line : string) : bool :=
  if negb (strings.Count line "." =? 3) then false
  else strings.ContainsAny line "-,".

(** [for v := low; v <= high; v++ { vals = append(vals, v) }] with [v] a
    [uint8]: [None] when the loop has not ended after [fuel] tests. *)
Fixpoint rangeLoop (fuel : nat) (v high : Z) (vals : list Z) : option (list Z) :=
  match fuel with
  | O => None
  | S fuel' =>
      if v <=? high then rangeLoop fuel' (uint8 (v + 1)) high (vals ++ [v])
      else Some vals
  end.

(** One bound of a range: the default when the text is empty. *)
Definition parseBound (text : string) (default : Z) : outcome Z :=
  if negb (String.eqb text EmptyString) then
    match strconv.Atoi text with
    | Some l =>
        if (l <? 0) || (l >? 255) then Err "invalid octet range"
        else Ok (uint8 l)
    | None => Err "invalid octet range"
    end
  else Ok default.

(** The body of the loop of [parseNmapOctet] over the segments. *)
Fixpoint parseNmapOctet_loop (fuel : nat) (segs : list string) (vals : list Z)
  : outcome (list Z) :=
  match segs with
  | [] => Ok vals
  | seg :: segs' =>
      let seg := strings_TrimSpace seg in
      let seg := if String.eqb seg "-" then "0-255" else seg in
      if strings.Contains seg "-" then
        let bounds := strings.SplitN2 seg "-" in
        do low <- parseBound (nth 0 bounds EmptyString) (uint8 0);
        do high <- parseBound (nth 1 bounds EmptyString) (uint8 255);
        if low >? high then Err "octet range low > high"
        else
          match rangeLoop fuel low high vals with
          | Some vals' => parseNmapOctet_loop fuel segs' vals'
          | None => OutOfFuel
          end
      else
        match strconv.Atoi seg with
        | Some v =>
            if (v <? 0) || (v >? 255) then Err "invalid octet value"
            else parseNmapOctet_loop fuel segs' (vals ++ [uint8 v])
        | None => Err "invalid octet value"
        end
  end.

Definition parseNmapOctet (fuel : nat) (part : string) : outcome (list Z) :=
  parseNmapOctet_loop fuel (strings.Split part ",") [].

Definition parseNmapIPRange (fuel : nat) (line : string) : outcome NmapIPRange :=
  match strings.Split line "." with
  | [p0; p1; p2; p3] =>
      do o0 <- parseNmapOctet fuel p0;
      do o1 <- parseNmapOctet fuel p1;
      do o2 <- parseNmapOctet fuel p2;
      do o3 <- parseNmapOctet fuel p3;
      Ok {| Octets := (o0, o1, o2, o3); Raw := line |}
  | _ => Err "invalid Nmap IP range format"
  end.

(** *** The line classifier *)

(** A parsed URL that passes the test
    "no error, a non-empty Host and an empty Opaque". *)
Definition usableURL (parsed : option url.URL) : option url.URL :=
  match parsed with
  | Some parsedURL =>
      if String.eqb (url.Host parsedURL) EmptyString
         || negb (String.eqb (url.Opaque parsedURL) EmptyString)
      then None else Some parsedURL
  | None => None
  end.

(** The end of [parseLine], once the text has parsed as a URL. *)
Definition parseLine_URL (line : string) (isScope : bool) (parsedURL : url.URL)
  : outcome value :=
  if negb isScope then
    match net_ParseIP (removePortFromHost parsedURL) with
    | Some ip => Ok (ptrURLWithIPAddressHost {| rawURL := line; IPhost := ip |})
    | None => Ok (ptrURL parsedURL)
    end
  else
    if String.eqb (url.Path parsedURL) EmptyString || String.eqb (url.Path parsedURL) "/"
    then Ok (str (removePortFromHost parsedURL))
    else Err ErrInvalidFormat.

(** [parseLine] from "Try plain IP" on. *)
Definition parseLine_IP_URL (line : string) (isScope : bool) : outcome value :=
  match net_ParseIP line with
  | Some ip => Ok (ptrIP ip)
  | None =>
      match usableURL (url_Parse line) with
      | Some parsedURL => parseLine_URL line isScope parsedURL
      | None =>
          if negb (strings.HasPrefix line "https://") then
            match usableURL (url_Parse ("https://" ++ line)%string) with
            | Some parsedURL => parseLine_URL line isScope parsedURL
            | None => Err ErrInvalidFormat
            end
          else Err ErrInvalidFormat
      end
  end.

Definition parseLine (fuel : nat) (line : string) (isScope : bool) : outcome value :=
  if isScope then
    if strings.HasPrefix line "^" && strings.HasSuffix line "$" then
      match regexp_Compile line with
      | Some scopeRegex => Ok (ptrRegexp scopeRegex)
      | None => Err ErrInvalidFormat
      end
    else if strings.Contains line "*" then
      let rawRegex := strings.Replace line "." "\." in
      let rawRegex := strings.Replace rawRegex "*" ".*" in
      match regexp_Compile rawRegex with
      | Some scopeRegex => Ok (ptrWildcardScope {| scope := scopeRegex |})
      | None => Err ErrInvalidFormat
      end
    else if isNmapIPRange line then
      match parseNmapIPRange fuel line with
      | Ok nmapRange => Ok (ptrNmapIPRange nmapRange)
      | Err _ => Err ErrInvalidFormat
      | Panic => Panic
      | OutOfFuel => OutOfFuel
      end
    else
      match net_ParseCIDR line with
      | Some ipnet => Ok (ptrIPNet ipnet)
      | None => parseLine_IP_URL line isScope
      end
  else parseLine_IP_URL line isScope.

Fixpoint parseAllLines_loop (fuel : nat) (lines : list string) (isScopes : bool)
    (parsed : list value) : outcome (list value) :=
  match lines with
  | [] => Ok parsed
  | line :: lines' =>
      match parseLine fuel line isScopes with
      | Ok parsedTemp => parseAllLines_loop fuel lines' isScopes (parsed ++ [parsedTemp])
      | Err _ => parseAllLines_loop fuel lines' isScopes parsed
      | Panic => Panic
      | OutOfFuel => OutOfFuel
      end
  end.

Definition parseAllLines (fuel : nat) (lines : list string) (isScopes : bool)
  : outcome (list value) :=
  do parsed <- parseAllLines_loop fuel lines isScopes [];
  if (List.length parsed =? 0)%nat then Err "unable to parse any lines as scopes"
  else Ok parsed.

(** *** The scope matcher *)

(** The test of one octet-range rule: every position of [ip] is among the
    values allowed there. *)
Definition nmapRangeMatches (assertedScope : NmapIPRange) (ip : net.IP) : bool :=
  forallb (fun i => existsb (fun v => nth i ip 0 =? v) (get4 (Octets assertedScope) i))
          [0; 1; 2; 3]%nat.

(** The loop of [isInscopeIP] at [--explicit-level=3]; [result] is the
    named result, kept from one iteration to the next. *)
Fixpoint isInscopeIP_loop3 (targetIP : net.IP) (inscopeScopes : list value)
    (result : bool) : bool :=
  match inscopeScopes with
  | [] => false
  | s :: rest =>
      let result :=
        match s with
        | ptrIP assertedScope => net.Equal assertedScope targetIP
        | _ => result
        end in
      if result then result else isInscopeIP_loop3 targetIP rest result
  end.

(** The loop of [isInscopeIP] at the other levels. *)
Fixpoint isInscopeIP_loop (targetIP : net.IP) (inscopeScopes : list value)
    (result : bool) : bool :=
  match inscopeScopes with
  | [] => false
  | s :: rest =>
      match s with
      | ptrIPNet assertedScope =>
          let result := net.Contains assertedScope targetIP in
          if result then result else isInscopeIP_loop targetIP rest result
      | ptrIP assertedScope =>
          let result := net.Equal assertedScope targetIP in
          if result then result else isInscopeIP_loop targetIP rest result
      | ptrNmapIPRange assertedScope =>
          match net.To4 targetIP with
          | None => isInscopeIP_loop targetIP rest result  (* continue *)
          | Some ip =>
              let result := nmapRangeMatches assertedScope ip in
              if result then result else isInscopeIP_loop targetIP rest result
          end
      | _ => if result then result else isInscopeIP_loop targetIP rest result
      end
  end.

Definition isInscopeIP (targetIP : net.IP) (inscopeScopes : list value)
    (explicitLevel : Z) : bool :=
  if explicitLevel =? 3 then isInscopeIP_loop3 targetIP inscopeScopes false
  else isInscopeIP_loop targetIP inscopeScopes false.

(** The loop of [isInscope] for a URL target. *)
Fixpoint isInscope_loop (assertedTarget : url.URL) (inscopeScopes : list value)
    (explicitLevel : Z) (result : bool) : bool :=
  match inscopeScopes with
  | [] => false
  | s :: rest =>
      let result :=
        match s with
        | str assertedScope =>
            if explicitLevel =? 1 then
              strings.HasSuffix (removePortFromHost assertedTarget) assertedScope
            else if (explicitLevel =? 2) || (explicitLevel =? 3) then
              String.eqb (removePortFromHost assertedTarget) assertedScope
            else result
        | ptrWildcardScope assertedScope =>
            if negb (explicitLevel =? 3) then
              MatchString (scope assertedScope) (removePortFromHost assertedTarget)
            else result
        | ptrRegexp assertedScope =>
            MatchString assertedScope (url_String assertedTarget)
        | _ => result
        end in
      if result then result
      else isInscope_loop assertedTarget rest explicitLevel result
  end.

Definition isInscope (inscopeScopes : list value) (target : value) (explicitLevel : Z)
  : bool :=
  match target with
  | ptrIP assertedTarget => isInscopeIP assertedTarget inscopeScopes explicitLevel
  | ptrURLWithIPAddressHost assertedTarget =>
      isInscopeIP (IPhost assertedTarget) inscopeScopes explicitLevel
  | ptrURL assertedTarget =>
      isInscope_loop assertedTarget inscopeScopes explicitLevel false
  | _ => false
  end.

Definition isOutOfScope (noscopeScopes : list value) (target : value) (explicitLevel : Z)
  : bool :=
  isInscope noscopeScopes target explicitLevel.

(** The pair is [(isInsideScope, isUnsure)]. *)
Definition parseScopes (inscopeScopes noscopeScopes : list value) (target : value)
    (inscopeExplicitLevel noscopeExplicitLevel : Z) (includeUnsure : bool)
  : bool * bool :=
  let targetIsOutOfScope := isOutOfScope noscopeScopes target noscopeExplicitLevel in
  if negb targetIsOutOfScope then
    let targetIsInscope := isInscope inscopeScopes target inscopeExplicitLevel in
    if targetIsInscope then (true, false)
    else if includeUnsure && negb targetIsInscope then (true, true)
    else (false, false)
  else (false, false).

(** *** The misconfiguration detector *)

(** [chainMode] is the global of that name. *)
Definition isAndroidPackageName (fuel : nat) (chainMode : bool) (rawScope : string)
    (privateTLDsAreEnabled : bool) : outcome bool :=
  if privateTLDsAreEnabled then Ok privateTLDsAreEnabled
  else
    match parseLine fuel rawScope true with
    | Ok (ptrURL inscope) =>
        let portlessHostofCurrentTarget := removePortFromHost inscope in
        let scopeHasValidTLD :=
          snd (publicsuffix_PublicSuffix portlessHostofCurrentTarget) in
        (* the slice [rawScope[0:4]] is taken for the warning *)
        if negb chainMode && (String.length rawScope <? 4)%nat then Panic
        else if negb scopeHasValidTLD && negb (String.eqb (url.Host inscope) EmptyString)
             then Ok true
             else Ok false
    | Ok _ => Ok false
    | Err _ => Ok false
    | Panic => Panic
    | OutOfFuel => OutOfFuel
    end.

(** One of the two loops of [getCompanyScopes] over the scopes of a program. *)
Fixpoint collectScopes (fuel : nat) (chainMode : bool) (scopes : list Scope)
    (privateTLDsAreEnabled : bool) (lines : list string) : outcome (list string) :=
  match scopes with
  | [] => Ok lines
  | s :: rest =>
      if String.eqb (Scope_type s) "web_application"
         && negb (String.eqb (Scope_Scope s) EmptyString)
      then
        let rawScope := Scope_Scope s in
        do flagged <- isAndroidPackageName fuel chainMode rawScope privateTLDsAreEnabled;
        collectScopes fuel chainMode rest privateTLDsAreEnabled
                      (if negb flagged then lines ++ [rawScope] else lines)
      else collectScopes fuel chainMode rest privateTLDsAreEnabled lines
  end.

(** The pair is [(inscopeLines, noscopeLines)].  The report that the
    function prints first when [chainMode] is off is not part of the
    definition, and neither is the [os.Stat] of the database file made for
    that report, whose failure stops the program: the definition gives what
    the function returns once the report is printed, and all of what it
    does when [chainMode] is on. *)
Definition getCompanyScopes (fuel : nat) (chainMode : bool) (firebountyJSON : Firebounty)
    (companyIndex : Z) (privateTLDsAreEnabled : bool)
  : outcome (list string * list string) :=
  if companyIndex <? 0 then Panic
  else
    match nth_error (Pgms firebountyJSON) (Z.to_nat companyIndex) with
    | None => Panic
    | Some pgm =>
        do inscopeLines <-
          collectScopes fuel chainMode (In_scopes pgm) privateTLDsAreEnabled [];
        if (List.length inscopeLines =? 0)%nat then
          Err ("Unable to parse any inscopes scopes from " ++ Name pgm)%string
        else
          do noscopeLines <-
            collectScopes fuel chainMode (Out_of_scopes pgm) privateTLDsAreEnabled [];
          Ok (inscopeLines, noscopeLines)
    end.

End Scoper.

(** ** Vocabulary of the statements *)

Section Vocabulary.

Context {lib : GoLibrary}.

(** The address of an IP-address target: a bare IP, or the numeric host of
    a URL. *)
Definition targetIP (target : value) : option net.IP :=
  match target with
  | ptrIP ip => Some ip
  | ptrURLWithIPAddressHost x => Some (IPhost x)
  | _ => None
  end.

(** What one rule contributes: the matcher run on that rule alone. *)
Definition ruleMatches (rule target : value) (explicitLevel : Z) : bool :=
  isInscope [rule] target explicitLevel.

Definition isErr {A : Type} (r : outcome A) : bool :=
  match r with
  | Err _ => true
  | _ => false
  end.

(** *** Octet-range tokens, in the words of the specification

    A token is dot-separated parts; a part is a comma-separated list of
    segments; a segment, white space removed, is a range when it has a
    hyphen (the texts before and after the first hyphen are its bounds,
    each optional) and a literal otherwise. *)

Definition segmentsOf (part : string) : list string :=
  map strings_TrimSpace (strings.Split part ",").

Definition allSegments (line : string) : list string :=
  flat_map segmentsOf (strings.Split line ".").

Definition isRange (t : string) : bool := strings.Contains t "-".

Definition lowText (t : string) : string := nth 0 (strings.SplitN2 t "-") EmptyString.

Definition highText (t : string) : string := nth 1 (strings.SplitN2 t "-") EmptyString.

(** The texts of a segment that have to be integers. *)
Definition numberTexts (t : string) : list string :=
  if isRange t
  then filter (fun x => negb (String.eqb x EmptyString)) [lowText t; highText t]
  else [t].

(** Some text of the segment is not an integer. *)
Definition notInteger (t : string) : bool :=
  existsb (fun x => match strconv.Atoi x with None => true | Some _ => false end)
          (numberTexts t).

(** Some integer of the segment is outside 0..255. *)
Definition outsideByte (t : string) : bool :=
  existsb (fun x => match strconv.Atoi x with
                    | Some v => (v <? 0) || (v >? 255)
                    | None => false
                    end)
          (numberTexts t).

Definition boundValue (x : string) (default : Z) : Z :=
  if String.eqb x EmptyString then default
  else match strconv.Atoi x with
       | Some v => v
       | None => default
       end.

Definition lowOf (t : string) : Z := boundValue (lowText t) 0.

Definition highOf (t : string) : Z := boundValue (highText t) 255.

(** The segment is a range whose low bound is above its high bound. *)
Definition lowAboveHigh (t : string) : bool := isRange t && (lowOf t >? highOf t).

Definition illFormed (t : string) : bool :=
  notInteger t || outsideByte t || lowAboveHigh t.

(** [low, low+1, ..., high] *)
Definition seqZ (low high : Z) : list Z :=
  map Z.of_nat (seq (Z.to_nat low) (Z.to_nat (high + 1 - low))).

(** The byte values a well-formed segment allows. *)
Definition valuesOf (t : string) : list Z :=
  if isRange t then seqZ (lowOf t) (highOf t) else [boundValue t 0].

Definition octetValues (part : string) : list Z :=
  flat_map valuesOf (segmentsOf part).

(** The segment is a literal, or a range with a written upper bound other
    than 255. *)
Definition endsBelow255 (t : string) : bool :=
  negb (isRange t)
  || (negb (String.eqb (highText t) EmptyString)
      && negb (match strconv.Atoi (highText t) with
               | Some v => v =? 255
               | None => false
               end)).

End Vocabulary.

(** ** A small instance of the library, to run the program on examples

    It stands in for the Go packages on plain inputs only: white space is
    ASCII white space; a pattern is a sequence of [^], [$], escaped bytes,
    letters, digits, hyphens, slashes, colons and [.*]; an address is a
    dotted quad, a network a dotted quad with a prefix length; a URL is
    [scheme://host/path] or a bare path; a public suffix is the last label,
    registered when it is one of a few well-known ones. *)

Module Sample.

Definition isSpace (c : ascii) : bool :=
  let n := nat_of_ascii c in
  ((9 <=? n) && (n <=? 13))%nat || (n =? 32)%nat.

Fixpoint trimLeft (s : string) : string :=
  match s with
  | String c s' => if isSpace c then trimLeft s' else s
  | EmptyString => EmptyString
  end.

Fixpoint trimRight (s : string) : string :=
  match s with
  | String c s' =>
      match trimRight s' with
      | EmptyString => if isSpace c then EmptyString else String c EmptyString
      | t => String c t
      end
  | EmptyString => EmptyString
  end.

Definition TrimSpace (s : string) : string := trimRight (trimLeft s).

(** Patterns *)
Inductive item : Type := Caret | Dollar | Lit (c : ascii) | AnyStar.

Definition plain (c : ascii) : bool :=
  let n := nat_of_ascii c in
  (((48 <=? n) && (n <=? 57)) || ((65 <=? n) && (n <=? 90))
   || ((97 <=? n) && (n <=? 122)) || (n =? 45) || (n =? 47) || (n =? 58))%nat.

Fixpoint Compile (s : string) : option (list item) :=
  match s with
  | EmptyString => Some []
  | String "^" s' => option_map (cons Caret) (Compile s')
  | String "$" s' => option_map (cons Dollar) (Compile s')
  | String "\" (String c s') => option_map (cons (Lit c)) (Compile s')
  | String "." (String "*" s') => option_map (cons AnyStar) (Compile s')
  | String c s' => if plain c then option_map (cons (Lit c)) (Compile s') else None
  end.

(** [atStart]: the segment starts the text and nothing of it is consumed;
    [atEnd]: nothing follows the segment in the text. *)
Fixpoint matchItems (items : list item) : bool -> string -> bool -> bool :=
  match items with
  | [] => fun _ mid _ => String.eqb mid EmptyString
  | Caret :: r => fun atStart mid atEnd => atStart && matchItems r atStart mid atEnd
  | Dollar :: r => fun atStart mid atEnd =>
      String.eqb mid EmptyString && atEnd && matchItems r atStart mid atEnd
  | Lit c :: r => fun _ mid atEnd =>
      match mid with
      | String a mid' => Ascii.eqb a c && matchItems r false mid' atEnd
      | EmptyString => false
      end
  | AnyStar :: r =>
      fix star (atStart : bool) (mid : string) (atEnd : bool) : bool :=
        matchItems r atStart mid atEnd ||
        match mid with
        | String a mid' => negb (Ascii.eqb a "010") && star false mid' atEnd
        | EmptyString => false
        end
  end.

Definition matches (re : list item) (pre mid post : string) : bool :=
  matchItems re (String.eqb pre EmptyString) mid (String.eqb post EmptyString).

(** Addresses *)
Definition octet (s : string) : option Z :=
  match s with
  | String "0" (String _ _) => None
  | _ =>
      match strconv.unsigned s with
      | Some n => if n <=? 255 then Some n else None
      | None => None
      end
  end.

Definition dottedQuad (s : string) : option (list Z) :=
  match map octet (strings.Split s ".") with
  | [Some a; Some b; Some c; Some d] => Some [a; b; c; d]
  | _ => None
  end.

Definition ParseIP (s : string) : option net.IP :=
  option_map (fun q => net.v4InV6Prefix ++ q) (dottedQuad s).

Fixpoint CIDRMask (ones : nat) (bytes : nat) : list Z :=
  match bytes with
  | O => []
  | S bytes' =>
      if (8 <=? ones)%nat then 255 :: CIDRMask (ones - 8) bytes'
      else (255 - (2 ^ (8 - Z.of_nat ones) - 1)) :: CIDRMask 0 bytes'
  end.

Definition ParseCIDR (s : string) : option net.IPNet :=
  match strings.SplitN2 s "/" with
  | [addr; len] =>
      match dottedQuad addr, strconv.unsigned len with
      | Some q, Some n =>
          if n <=? 32 then
            let m := CIDRMask (Z.to_nat n) 4 in
            Some {| net.IPNet_IP := map (fun p => Z.land (fst p) (snd p)) (combine q m);
                    net.Mask := m |}
          else None
      | _, _ => None
      end
  | _ => None
  end.

(** URLs *)
Fixpoint cutAt (sep s : string) : option (string * string) :=
  if String.prefix sep s then Some (EmptyString, strings.from (String.length sep) s)
  else match s with
       | String a s' =>
           option_map (fun p => (String a (fst p), snd p)) (cutAt sep s')
       | EmptyString => None
       end.

Definition mkURL (scheme host path : string) : url.URL :=
  {| url.Scheme := scheme; url.Opaque := EmptyString; url.User := None;
     url.Host := host; url.Path := path; url.RawPath := EmptyString;
     url.OmitHost := false; url.ForceQuery := false;
     url.RawQuery := EmptyString; url.Fragment := EmptyString;
     url.RawFragment := EmptyString |}.

Definition Parse (s : string) : option url.URL :=
  match cutAt "://" s with
  | Some (scheme, rest) =>
      match cutAt "/" rest with
      | Some (host, path) => Some (mkURL scheme host (String "/" path))
      | None => Some (mkURL scheme rest EmptyString)
      end
  | None => Some (mkURL EmptyString EmptyString s)
  end.

Definition String_ (u : url.URL) : string :=
  ((if String.eqb (url.Scheme u) EmptyString then EmptyString
    else url.Scheme u ++ ":")
   ++ (if String.eqb (url.Host u) EmptyString then EmptyString
       else "//" ++ url.Host u)
   ++ url.Path u)%string.

(** Public suffixes *)
Definition lastLabel (host : string) : string :=
  last (strings.Split host ".") EmptyString.

Definition PublicSuffix (host : string) : string * bool :=
  let tld := lastLabel host in
  (tld, existsb (String.eqb tld) ["com"; "org"; "net"; "edu"; "gov"]).

Definition library : GoLibrary := {|
  strings_TrimSpace := TrimSpace;
  Regexp := list item;
  regexp_Compile := Compile;
  regexp_match := matches;
  net_ParseIP := ParseIP;
  net_ParseCIDR := ParseCIDR;
  url_Parse := Parse;
  url_String := String_;
  publicsuffix_PublicSuffix := PublicSuffix
|}.

(** Values for the examples *)
Definition host (h : string) : url.URL := mkURL "https" h EmptyString.

Definition net24 : net.IPNet :=
  {| net.IPNet_IP := [10; 0; 0; 0]; net.Mask := [255; 255; 255; 0] |}.

Definition ip_10_0_0_5 : net.IP := net.v4InV6Prefix ++ [10; 0; 0; 5].

Definition ip_10_0_7_10 : net.IP := net.v4InV6Prefix ++ [10; 0; 7; 10].

Definition range_10_0_any_5_10 : NmapIPRange :=
  {| Octets := ([10], [0], seqZ 0 255, [5; 10]); Raw := "10.0.0-255.5,10" |}.

Definition pattern (items : list item) : @Regexp library := items.

(** The pattern that [.*\.example\.com] compiles to. *)
Definition any_dot_example_com : @WildcardScope library :=
  {| scope := pattern (AnyStar
                         :: map Lit (list_ascii_of_string ".example.com")) |}.

(** The pattern that [^example\.com$] compiles to. *)
Definition anchored_example_com : @Regexp library :=
  pattern (Caret :: map Lit (list_ascii_of_string "example.com")
             ++ [Dollar]).

Definition webApplication (raw : string) : Scope :=
  {| Scope_Scope := raw; Scope_type := "web_application" |}.

Definition program (ins : list Scope) : Program :=
  {| In_scopes := ins; Out_of_scopes := []; Name := "acme" |}.

End Sample.

(** ** The rest of [main.go]: the read of a rule file, the search of a
    company and the loop over the targets *)

Section Main.

Context {lib : GoLibrary}.

(** [ip.String()] of package [net] and [strings.ToLower]. *)
Variable IP_String : net.IP -> string.
Variable strings_ToLower : string -> string.

(** The loop of [readFileLines] over the raw lines. *)
Fixpoint readFileLines_loop (rawLines : list string) (lines : list string)
  : list string :=
  match rawLines with
  | [] => lines
  | line :: rest =>
      let line := strings_TrimSpace line in
      if negb (String.eqb line EmptyString)
         && negb (strings.HasPrefix line "#")
         && negb (strings.HasPrefix line "//")
      then readFileLines_loop rest (lines ++ [line])
      else readFileLines_loop rest lines
  end.

(** [readFileLines]; [files] is what [os.ReadFile] finds, [None] its
    error. *)
Definition readFileLines (files : string -> option string) (filepath : string)
  : option (list string) :=
  match files filepath with
  | None => None
  | Some data => Some (readFileLines_loop (strings.Split data "010") [])
  end.

Record firebountySearchMatch : Type := {
  companyIndex : Z;
  companyName : string
}.

(** The loop of [main] over the programs of the database: those whose
    lower-cased name contains [company]. *)
Fixpoint matchingCompanies (pgms : list Program) (companyCounter : Z) (company : string)
    (matchingCompanyList : list firebountySearchMatch) : list firebountySearchMatch :=
  match pgms with
  | [] => matchingCompanyList
  | pgm :: rest =>
      let fcompany := strings_ToLower (Name pgm) in
      matchingCompanies rest (companyCounter + 1) company
        (if strings.Contains fcompany company
         then matchingCompanyList
              ++ [{| companyIndex := companyCounter; companyName := Name pgm |}]
         else matchingCompanyList)
  end.

(** What [main] prints and writes for a target in scope: [infoWarning
    "UNSURE: "] or [infoGood "IN-SCOPE: "] on the terminal (the bare
    target in chain mode, nothing in quiet mode), and the target in the
    output file. *)
Inductive outputLabel : Type := UNSURE | IN_SCOPE.

Record outputLine : Type := { label : outputLabel; target : string }.

(** The text written for a target: with [--hostnames-only] the
    port-stripped host of a URL and the address of a URL with a numeric
    host. *)
Definition outputTarget (outputDomainsOnly : bool) (parsedTarget : value)
    (input : string) : string :=
  if outputDomainsOnly then
    match parsedTarget with
    | ptrURL assertedTarget => removePortFromHost assertedTarget
    | ptrURLWithIPAddressHost assertedTarget => IP_String (IPhost assertedTarget)
    | _ => input
    end
  else input.

(** The loop of [main] over [targetsInput]: the lines it emits, in order.
    A line is printed on the terminal unless [quietMode] is on, and written
    to the output file when there is one; the write itself is not part of
    the definition, and neither is its failure, which stops the program. *)
Fixpoint scopeTargets (fuel : nat) (inscopeScopes noscopeScopes : list value)
    (targetsInput : list string) (inscopeExplicitLevel noscopeExplicitLevel : Z)
    (includeUnsure outputDomainsOnly : bool) : outcome (list outputLine) :=
  match targetsInput with
  | [] => Ok []
  | input :: rest =>
      let continue :=
        scopeTargets fuel inscopeScopes noscopeScopes rest
                     inscopeExplicitLevel noscopeExplicitLevel
                     includeUnsure outputDomainsOnly in
      match parseLine fuel input false with
      | Err _ => continue
      | Ok parsedTarget =>
          let '(isInsideScope, isUnsure) :=
            parseScopes inscopeScopes noscopeScopes parsedTarget
                        inscopeExplicitLevel noscopeExplicitLevel includeUnsure in
          if isInsideScope then
            do out <- continue;
            Ok ({| label := if isUnsure && includeUnsure then UNSURE else IN_SCOPE;
                   target := outputTarget outputDomainsOnly parsedTarget input |}
                :: out)
          else continue
      | Panic => Panic
      | OutOfFuel => OutOfFuel
      end
  end.

End Main.

(** ** More vocabulary *)

Section Kinds.

Context {lib : GoLibrary}.

(** The rules an IP-address target is compared with. *)
Definition isAddressRule (rule : value) : bool :=
  match rule with
  | ptrIP _ | ptrIPNet _ | ptrNmapIPRange _ => true
  | _ => false
  end.

(** The rules a URL target is compared with. *)
Definition isHostRule (rule : value) : bool :=
  match rule with
  | str _ | ptrWildcardScope _ | ptrRegexp _ => true
  | _ => false
  end.

(** The values of a line that classifies, none otherwise. *)
Definition classified (fuel : nat) (isScopes : bool) (line : string) : list value :=
  match parseLine fuel line isScopes with
  | Ok v => [v]
  | _ => []
  end.


(** The URL that the end of [parseLine] works on, if any: the text parsed
    as it is, or after [https://] when that fails and the text does not
    begin with [https://] already. *)
Definition lineURL (line : string) : option url.URL :=
  match usableURL (url_Parse line) with
  | Some u => Some u
  | None =>
      if negb (strings.HasPrefix line "https://")
      then usableURL (url_Parse ("https://" ++ line)%string)
      else None
  end.

(** A line that [readFileLines] keeps. *)
Definition isRuleLine (line : string) : bool :=
  negb (String.eqb line EmptyString)
  && negb (strings.HasPrefix line "#")
  && negb (strings.HasPrefix line "//").

(** An entry of the database that [getCompanyScopes] looks at. *)
Definition isWebApplication (s : Scope) : bool :=
  String.eqb (Scope_type s) "web_application"
  && negb (String.eqb (Scope_Scope s) EmptyString).

End Kinds.

(** ASCII lower case, for the examples. *)
Definition asciiToLower (s : string) : string :=
  string_of_list_ascii
    (map (fun c => let n := nat_of_ascii c in
                   if ((65 <=? n) && (n <=? 90))%nat then ascii_of_nat (n + 32) else c)
         (list_ascii_of_string s)).

(** * Properties *)

(** ** Byte strings *)

Lemma append_nil_r (s : string) : (s ++ EmptyString)%string = s.
Proof. induction s as [|a s IH]; simpl; [reflexivity | now rewrite IH]. Qed.

Lemma append_assoc (a b c : string) : ((a ++ b) ++ c)%string = (a ++ b ++ c)%string.
Proof. induction a as [|x a IH]; simpl; [reflexivity | now rewrite IH]. Qed.

Lemma length_append (a b : string) :
  String.length (a ++ b) = (String.length a + String.length b)%nat.
Proof. induction a as [|x a IH]; simpl; [reflexivity | now rewrite IH]. Qed.

Lemma substring_all (s : string) : substring 0 (String.length s) s = s.
Proof. induction s as [|a s IH]; simpl; [reflexivity | now rewrite IH]. Qed.

Lemma substring_skip (pre s : string) (n : nat) :
  substring (String.length pre) n (pre ++ s) = substring 0 n s.
Proof. induction pre as [|a pre IH]; simpl; [reflexivity | exact IH]. Qed.

Lemma substring_cut (s : string) (n : nat) :
  (n <= String.length s)%nat ->
  s = (substring 0 n s ++ substring n (String.length s - n) s)%string.
Proof.
  revert n; induction s as [|a s IH]; intros n Hn; simpl in *.
  - destruct n; reflexivity.
  - destruct n as [|n]; simpl.
    + now rewrite substring_all.
    + f_equal. apply IH. lia.
Qed.

(** [HasSuffix s suffix] holds exactly when [s] ends with [suffix]. *)
Lemma HasSuffix_spec (s suffix : string) :
  strings.HasSuffix s suffix = true <-> exists pre, s = (pre ++ suffix)%string.
Proof.
  unfold strings.HasSuffix. rewrite andb_true_iff, Nat.leb_le, String.eqb_eq. split.
  - intros [Hlen Hsub].
    exists (substring 0 (String.length s - String.length suffix) s).
    pose proof (substring_cut s (String.length s - String.length suffix)) as Hcut.
    replace (String.length s - (String.length s - String.length suffix))%nat
      with (String.length suffix) in Hcut by lia.
    rewrite Hsub in Hcut. apply Hcut. lia.
  - intros [pre ->]. rewrite length_append. split; [lia|].
    replace (String.length pre + String.length suffix - String.length suffix)%nat
      with (String.length pre) by lia.
    rewrite substring_skip. apply substring_all.
Qed.

Lemma in_cuts2 (s a b : string) : In (a, b) (cuts2 s) <-> s = (a ++ b)%string.
Proof.
  revert a b; induction s as [|x s IH]; intros a b; simpl.
  - split.
    + intros [H|[]]. now inversion H.
    + destruct a; simpl; intros H; [left; now subst | discriminate].
  - rewrite in_map_iff. split.
    + intros [H|[[a' b'] [H Hin]]].
      * now inversion H.
      * simpl in H. inversion H; subst. apply IH in Hin. now subst.
    + destruct a as [|y a]; simpl; intros H.
      * left. now subst.
      * inversion H; subst. right. exists (a, b). split; [reflexivity|]. now apply IH.
Qed.

Lemma in_cuts3 (s a b c : string) :
  In (a, b, c) (cuts3 s) <-> s = (a ++ b ++ c)%string.
Proof.
  unfold cuts3. rewrite in_flat_map. split.
  - intros [[a' r] [H1 H2]]. apply in_map_iff in H2 as [[b' c'] [E H2]].
    simpl in *. inversion E; subst. apply in_cuts2 in H1, H2. now subst.
  - intros ->. exists (a, (b ++ c)%string). split; [now apply in_cuts2|].
    apply in_map_iff. exists (b, c). split; [reflexivity | now apply in_cuts2].
Qed.

(** ** The last colon of a host *)

Lemma substring_prefix (a b : string) : substring 0 (String.length a) (a ++ b) = a.
Proof. induction a as [|x a IH]; simpl; [now destruct b | now rewrite IH]. Qed.

Lemma from_append (a b : string) : strings.from (String.length a) (a ++ b) = b.
Proof.
  unfold strings.from. rewrite length_append, substring_skip.
  replace (String.length a + String.length b - String.length a)%nat
    with (String.length b) by lia.
  apply substring_all.
Qed.

Lemma LastIndexByte_from_append (a b : string) (c : ascii) (i : nat) (last : option nat) :
  strings.LastIndexByte_from (a ++ b) c i last
  = strings.LastIndexByte_from b c (i + String.length a)
      (strings.LastIndexByte_from a c i last).
Proof.
  revert i last; induction a as [|x a IH]; intros i last; simpl.
  - now rewrite Nat.add_0_r.
  - rewrite IH. f_equal. lia.
Qed.

Lemma LastIndexByte_from_absent (s : string) (c : ascii) (i : nat) (last : option nat) :
  strings.Count s c = 0 -> strings.LastIndexByte_from s c i last = last.
Proof.
  revert i last; induction s as [|x s IH]; intros i last H; simpl in *; [reflexivity|].
  assert (Hc : 0 <= strings.Count s c).
  { clear. induction s as [|y s IH]; simpl; [lia | destruct (Ascii.eqb y c); lia]. }
  destruct (Ascii.eqb x c); [lia|]. apply IH. lia.
Qed.

Lemma allDigits_no_colon (port : string) :
  url.allDigits port = true -> strings.Count port ":" = 0.
Proof.
  induction port as [|b port IH]; simpl; [reflexivity|].
  intros H. apply andb_true_iff in H as [H1 H2]. apply andb_true_iff in H1 as [Hlo Hhi].
  destruct (Ascii.eqb b ":") eqn:Hb.
  - apply Ascii.eqb_eq in Hb. subst b. discriminate.
  - now rewrite IH.
Qed.

(** The last colon of [h ++ ":" ++ tail], when [tail] has none. *)
Lemma LastIndexByte_colon (h tail : string) :
  strings.Count tail ":" = 0 ->
  strings.LastIndexByte (h ++ String ":" tail) ":" = Some (String.length h).
Proof.
  intros H. unfold strings.LastIndexByte.
  rewrite LastIndexByte_from_append. cbn [strings.LastIndexByte_from Ascii.eqb Bool.eqb].
  now rewrite LastIndexByte_from_absent.
Qed.

Lemma Port_colon (u : url.URL) (h tail : string) :
  url.Host u = (h ++ String ":" tail)%string ->
  strings.Count tail ":" = 0 ->
  url.Port u = if url.allDigits tail then tail else EmptyString.
Proof.
  intros Hu Ht. unfold url.Port. rewrite Hu, LastIndexByte_colon by exact Ht.
  rewrite from_append. cbn [url.validOptionalPort Ascii.eqb Bool.eqb andb].
  destruct (url.allDigits tail); [|reflexivity].
  change (h ++ String ":" tail)%string with (h ++ (String ":" EmptyString ++ tail))%string.
  rewrite <- append_assoc.
  replace (S (String.length h)) with (String.length (h ++ String ":" EmptyString))
    by (rewrite length_append; simpl; lia).
  apply from_append.
Qed.

Lemma Port_no_colon (u : url.URL) :
  strings.Count (url.Host u) ":" = 0 -> url.Port u = EmptyString.
Proof.
  intros H. unfold url.Port, strings.LastIndexByte.
  now rewrite LastIndexByte_from_absent.
Qed.

(** What [removePortFromHost] returns for a host with a colon whose tail
    has none: the text before the colon when the tail is a non-empty
    decimal number, the whole host otherwise. *)
Lemma removePortFromHost_last_colon (u : url.URL) (h tail : string) :
  url.Host u = (h ++ String ":" tail)%string ->
  strings.Count tail ":" = 0 ->
  removePortFromHost u
  = if url.allDigits tail && negb (String.eqb tail EmptyString) then h else url.Host u.
Proof.
  intros Hu Ht. unfold removePortFromHost. rewrite (Port_colon u h tail Hu Ht).
  destruct (url.allDigits tail); [|reflexivity].
  destruct tail as [|b tail]; [reflexivity|].
  cbn [String.length Nat.eqb negb String.eqb andb]. rewrite Hu, length_append.
  cbn [String.length].
  replace (String.length h + S (S (String.length tail)) - S (String.length tail) - 1)%nat
    with (String.length h) by lia.
  apply substring_prefix.
Qed.

(** ** The matcher is a disjunction over the rules *)

Section Matcher.

Context {lib : GoLibrary}.

Lemma isInscopeIP_loop3_cons (targetIP : net.IP) (s : value) (rest : list value) :
  isInscopeIP_loop3 targetIP (s :: rest) false
  = isInscopeIP_loop3 targetIP [s] false || isInscopeIP_loop3 targetIP rest false.
Proof.
  cbn [isInscopeIP_loop3]. destruct s; try reflexivity.
  now destruct (net.Equal ip targetIP).
Qed.

Lemma isInscopeIP_loop_cons (targetIP : net.IP) (s : value) (rest : list value) :
  isInscopeIP_loop targetIP (s :: rest) false
  = isInscopeIP_loop targetIP [s] false || isInscopeIP_loop targetIP rest false.
Proof.
  cbn [isInscopeIP_loop]. destruct s; try reflexivity.
  - destruct (net.To4 targetIP); [|reflexivity].
    now destruct (nmapRangeMatches r i).
  - now destruct (net.Contains n targetIP).
  - now destruct (net.Equal ip targetIP).
Qed.

Lemma isInscope_loop_cons (u : url.URL) (s : value) (rest : list value) (lvl : Z) :
  isInscope_loop u (s :: rest) lvl false
  = isInscope_loop u [s] lvl false || isInscope_loop u rest lvl false.
Proof.
  cbn [isInscope_loop]. destruct s; try reflexivity.
  - now destruct (MatchString re (url_String u)).
  - destruct (negb (lvl =? 3)); [|reflexivity].
    now destruct (MatchString (scope w) (removePortFromHost u)).
  - destruct (lvl =? 1).
    + now destruct (strings.HasSuffix (removePortFromHost u) s).
    + destruct ((lvl =? 2) || (lvl =? 3)); [|reflexivity].
      now destruct (String.eqb (removePortFromHost u) s).
Qed.

Lemma isInscopeIP_loop3_existsb (targetIP : net.IP) (scopes : list value) :
  isInscopeIP_loop3 targetIP scopes false
  = existsb (fun s => isInscopeIP_loop3 targetIP [s] false) scopes.
Proof.
  induction scopes as [|s rest IH]; [reflexivity|].
  rewrite isInscopeIP_loop3_cons, IH. reflexivity.
Qed.

Lemma isInscopeIP_loop_existsb (targetIP : net.IP) (scopes : list value) :
  isInscopeIP_loop targetIP scopes false
  = existsb (fun s => isInscopeIP_loop targetIP [s] false) scopes.
Proof.
  induction scopes as [|s rest IH]; [reflexivity|].
  rewrite isInscopeIP_loop_cons, IH. reflexivity.
Qed.

Lemma isInscope_loop_existsb (u : url.URL) (scopes : list value) (lvl : Z) :
  isInscope_loop u scopes lvl false
  = existsb (fun s => isInscope_loop u [s] lvl false) scopes.
Proof.
  induction scopes as [|s rest IH]; [reflexivity|].
  rewrite isInscope_loop_cons, IH. reflexivity.
Qed.

(** The matcher returns the disjunction of what the rules contribute. *)
Lemma isInscope_existsb (scopes : list value) (target : value) (lvl : Z) :
  isInscope scopes target lvl = existsb (fun s => ruleMatches s target lvl) scopes.
Proof.
  unfold ruleMatches.
  destruct target; cbn [isInscope];
    try (induction scopes as [|s0 rest IH]; [reflexivity | exact IH]).
  - unfold isInscopeIP. destruct (lvl =? 3);
      [apply isInscopeIP_loop3_existsb | apply isInscopeIP_loop_existsb].
  - apply isInscope_loop_existsb.
  - unfold isInscopeIP. destruct (lvl =? 3);
      [apply isInscopeIP_loop3_existsb | apply isInscopeIP_loop_existsb].
Qed.

Lemma isInscope_exists (scopes : list value) (target : value) (lvl : Z) :
  isInscope scopes target lvl = true
  <-> exists s, In s scopes /\ ruleMatches s target lvl = true.
Proof. rewrite isInscope_existsb. apply existsb_exists. Qed.

Lemma existsb_Permutation {A : Type} (f : A -> bool) (l l' : list A) :
  Permutation l l' -> existsb f l = existsb f l'.
Proof.
  induction 1 as [|x l l' _ IH|x y l|l l' l'' _ IH1 _ IH2]; cbn [existsb].
  - reflexivity.
  - now rewrite IH.
  - now destruct (f x), (f y).
  - now rewrite IH1.
Qed.

Lemma MatchString_spec (re : Regexp) (s : string) :
  MatchString re s = true
  <-> exists pre mid post,
        s = (pre ++ mid ++ post)%string /\ regexp_match re pre mid post = true.
Proof.
  unfold MatchString. rewrite existsb_exists. split.
  - intros [[[pre mid] post] [Hin Hm]]. exists pre, mid, post.
    split; [now apply in_cuts3 | exact Hm].
  - intros (pre & mid & post & Hs & Hm). exists (pre, mid, post).
    split; [now apply in_cuts3 | exact Hm].
Qed.

End Matcher.

(** ** What the classifier returns for a rule *)

Section Classifier.

Context {lib : GoLibrary}.

Lemma parseLine_URL_scope (line : string) (u : url.URL) (v : value) :
  parseLine_URL line true u = Ok v -> exists h, v = str h.
Proof.
  unfold parseLine_URL; cbn.
  destruct (String.eqb (url.Path u) EmptyString || String.eqb (url.Path u) "/");
    intros H; inversion H; eauto.
Qed.

Lemma parseLine_IP_URL_scope (line : string) (v : value) :
  parseLine_IP_URL line true = Ok v ->
  (exists ip, v = ptrIP ip /\ net_ParseIP line = Some ip) \/ (exists h, v = str h).
Proof.
  unfold parseLine_IP_URL.
  destruct (net_ParseIP line) as [ip|].
  - intros H; inversion H; eauto.
  - destruct (usableURL (url_Parse line)) as [u|].
    + intros H. right. eapply parseLine_URL_scope; eauto.
    + destruct (negb (strings.HasPrefix line "https://")); [|discriminate].
      destruct (usableURL (url_Parse ("https://" ++ line))) as [u|]; [|discriminate].
      intros H. right. eapply parseLine_URL_scope; eauto.
Qed.

(** A rule is never a URL value: a host name is kept as a bare string. *)
Lemma parseLine_scope_inv (fuel : nat) (line : string) (v : value) :
  parseLine fuel line true = Ok v ->
  match v with
  | ptrRegexp re =>
      strings.HasPrefix line "^" = true /\ strings.HasSuffix line "$" = true
      /\ regexp_Compile line = Some re
  | ptrWildcardScope w =>
      strings.Contains line "*" = true
      /\ regexp_Compile (strings.Replace (strings.Replace line "." "\.") "*" ".*")
         = Some (scope w)
  | ptrNmapIPRange r => isNmapIPRange line = true /\ parseNmapIPRange fuel line = Ok r
  | ptrIPNet n => net_ParseCIDR line = Some n
  | ptrIP ip => net_ParseIP line = Some ip
  | str _ => True
  | ptrURL _ => False
  | ptrURLWithIPAddressHost _ => False
  end.
Proof.
  unfold parseLine.
  destruct (strings.HasPrefix line "^") eqn:Hp, (strings.HasSuffix line "$") eqn:Hs; cbn [andb].
  1: { destruct (regexp_Compile line) as [re|] eqn:Hc; intros H; inversion H; auto. }
  all: destruct (strings.Contains line "*") eqn:Hw;
    [ destruct (regexp_Compile _) as [re|] eqn:Hc; intros H; inversion H; cbn; auto | ].
  all: destruct (isNmapIPRange line) eqn:Hn;
    [ destruct (parseNmapIPRange fuel line) eqn:Hr; intros H; inversion H; auto | ].
  all: destruct (net_ParseCIDR line) as [n|] eqn:Hc; [ intros H; inversion H; auto | ].
  all: intros H; apply parseLine_IP_URL_scope in H as [(ip & -> & Hip)|(h & ->)]; auto.
Qed.

End Classifier.

(** ** The decision and the matcher *)

Section Decision.

Context {lib : GoLibrary}.

(** C1.  A target that matches the out-of-scope rule set is Excluded
    (not inside scope, not unsure) at all strictness levels, whatever the
    in-scope rule set, its level and the include-unsure flag are: the
    in-scope set plays no part once the out-of-scope match succeeds, also
    when the target matches it too. *)
Theorem parseScopes_out_of_scope_wins
    (noscopeScopes : list value) (target : value) (noscopeExplicitLevel : Z) :
  isInscope noscopeScopes target noscopeExplicitLevel = true ->
  forall (inscopeScopes : list value) (inscopeExplicitLevel : Z) (includeUnsure : bool),
    parseScopes inscopeScopes noscopeScopes target
                inscopeExplicitLevel noscopeExplicitLevel includeUnsure
    = (false, false).
Proof.
  intros Hout ins li iu. unfold parseScopes, isOutOfScope.
  rewrite Hout. reflexivity.
Qed.

(** C10.  The decision is one of Excluded [(false, false)], in scope and
    sure [(true, false)], in scope and unsure [(true, true)]; it is never
    [(false, true)]: unsure implies inside scope, and unsure implies that
    the include-unsure flag is set, so that without the flag the unsure
    component is false. *)
Theorem parseScopes_three_outcomes
    (inscopeScopes noscopeScopes : list value) (target : value)
    (inscopeExplicitLevel noscopeExplicitLevel : Z) (includeUnsure : bool) :
  (parseScopes inscopeScopes noscopeScopes target
               inscopeExplicitLevel noscopeExplicitLevel includeUnsure
   = (false, false)
   \/ parseScopes inscopeScopes noscopeScopes target
                  inscopeExplicitLevel noscopeExplicitLevel includeUnsure
      = (true, false)
   \/ parseScopes inscopeScopes noscopeScopes target
                  inscopeExplicitLevel noscopeExplicitLevel includeUnsure
      = (true, true) /\ includeUnsure = true)
  /\ snd (parseScopes inscopeScopes noscopeScopes target
                      inscopeExplicitLevel noscopeExplicitLevel false) = false.
Proof.
  unfold parseScopes, isOutOfScope.
  destruct (isInscope noscopeScopes target noscopeExplicitLevel),
           (isInscope inscopeScopes target inscopeExplicitLevel),
           includeUnsure; cbn; auto.
Qed.

(** C9.  The matcher gives the same answer on every permutation of the
    rule set, for every target and every level. *)
Theorem isInscope_Permutation
    (scopes scopes' : list value) (target : value) (explicitLevel : Z) :
  Permutation scopes scopes' ->
  isInscope scopes target explicitLevel = isInscope scopes' target explicitLevel.
Proof.
  intros Hperm. rewrite !isInscope_existsb. now apply existsb_Permutation.
Qed.

(** C3.  For a URL target and an exact-host rule [h]: at level 1 the rule
    matches exactly when the port-stripped host of the target ends with
    [h]; at levels 2 and 3 exactly when the port-stripped host is [h].
    The port-stripped host is pinned on the host of the URL: when the host
    is [host], a colon and a non-empty decimal port, the rule is compared
    with [host], the colon and the port playing no part; when the host has
    no colon, or when what follows its last colon is empty or is not a
    decimal number, the rule is compared with the host itself. *)
Theorem isInscope_exact_host (u : url.URL) (h : string) :
  (isInscope [str h] (ptrURL u) 1 = true
   <-> exists pre, removePortFromHost u = (pre ++ h)%string)
  /\ (isInscope [str h] (ptrURL u) 2 = true <-> removePortFromHost u = h)
  /\ (isInscope [str h] (ptrURL u) 3 = true <-> removePortFromHost u = h)
  /\ (forall host port : string,
        url.Host u = (host ++ String ":" port)%string ->
        url.allDigits port = true ->
        port <> EmptyString ->
        (isInscope [str h] (ptrURL u) 1 = true <-> exists pre, host = (pre ++ h)%string)
        /\ (isInscope [str h] (ptrURL u) 2 = true <-> host = h)
        /\ (isInscope [str h] (ptrURL u) 3 = true <-> host = h))
  /\ (strings.Count (url.Host u) ":" = 0 ->
        (isInscope [str h] (ptrURL u) 1 = true
         <-> exists pre, url.Host u = (pre ++ h)%string)
        /\ (isInscope [str h] (ptrURL u) 2 = true <-> url.Host u = h)
        /\ (isInscope [str h] (ptrURL u) 3 = true <-> url.Host u = h))
  /\ (forall host tail : string,
        url.Host u = (host ++ String ":" tail)%string ->
        strings.Count tail ":" = 0 ->
        tail = EmptyString \/ url.allDigits tail = false ->
        (isInscope [str h] (ptrURL u) 1 = true
         <-> exists pre, url.Host u = (pre ++ h)%string)
        /\ (isInscope [str h] (ptrURL u) 2 = true <-> url.Host u = h)
        /\ (isInscope [str h] (ptrURL u) 3 = true <-> url.Host u = h)).
Proof.
  assert (H1 : isInscope [str h] (ptrURL u) 1 = true
               <-> exists pre, removePortFromHost u = (pre ++ h)%string).
  { cbn. rewrite <- HasSuffix_spec.
    now destruct (strings.HasSuffix (removePortFromHost u) h). }
  assert (H2 : isInscope [str h] (ptrURL u) 2 = true <-> removePortFromHost u = h).
  { cbn. rewrite <- String.eqb_eq. now destruct (String.eqb (removePortFromHost u) h). }
  assert (H3 : isInscope [str h] (ptrURL u) 3 = true <-> removePortFromHost u = h).
  { cbn. rewrite <- String.eqb_eq. now destruct (String.eqb (removePortFromHost u) h). }
  split; [exact H1|]. split; [exact H2|]. split; [exact H3|]. split; [|split].
  - intros host port Hu Hd Hne.
    assert (Hp : removePortFromHost u = host).
    { rewrite (removePortFromHost_last_colon u host port Hu (allDigits_no_colon port Hd)), Hd.
      destruct port; [contradiction | reflexivity]. }
    rewrite Hp in H1, H2, H3. split; [exact H1|]. split; [exact H2 | exact H3].
  - intros Hc.
    assert (Hp : removePortFromHost u = url.Host u).
    { unfold removePortFromHost. now rewrite (Port_no_colon u Hc). }
    rewrite Hp in H1, H2, H3. split; [exact H1|]. split; [exact H2 | exact H3].
  - intros host tail Hu Ht Htail.
    assert (Hp : removePortFromHost u = url.Host u).
    { rewrite (removePortFromHost_last_colon u host tail Hu Ht).
      destruct Htail as [-> | ->]; reflexivity. }
    rewrite Hp in H1, H2, H3. split; [exact H1|]. split; [exact H2 | exact H3].
Qed.

(** C4.  For a URL target and a wildcard rule: at levels 1 and 2 the rule
    matches exactly when its pattern matches some segment of the
    port-stripped host, wherever the segment lies (an unanchored search);
    at level 3 it does not match.  The pattern of a wildcard rule is the
    rule text compiled after every dot is escaped and every star is
    replaced by dot-star.  The searched text is pinned on the host of the
    URL: when the host is [host], a colon and a non-empty decimal port, the
    search runs on [host], so that neither the colon nor the port is part
    of a matched segment; when the host has no colon, or when what follows
    its last colon is empty or is not a decimal number, the search runs on
    the host itself. *)
Theorem isInscope_wildcard (w : WildcardScope) (u : url.URL) :
  (isInscope [ptrWildcardScope w] (ptrURL u) 1 = true
   <-> exists pre mid post,
         removePortFromHost u = (pre ++ mid ++ post)%string
         /\ regexp_match (scope w) pre mid post = true)
  /\ (isInscope [ptrWildcardScope w] (ptrURL u) 2 = true
      <-> exists pre mid post,
            removePortFromHost u = (pre ++ mid ++ post)%string
            /\ regexp_match (scope w) pre mid post = true)
  /\ isInscope [ptrWildcardScope w] (ptrURL u) 3 = false
  /\ (forall (fuel : nat) (line : string),
        parseLine fuel line true = Ok (ptrWildcardScope w) ->
        regexp_Compile (strings.Replace (strings.Replace line "." "\.") "*" ".*")
        = Some (scope w))
  /\ (forall host port : string,
        url.Host u = (host ++ String ":" port)%string ->
        url.allDigits port = true ->
        port <> EmptyString ->
        (isInscope [ptrWildcardScope w] (ptrURL u) 1 = true
         <-> exists pre mid post,
               host = (pre ++ mid ++ post)%string
               /\ regexp_match (scope w) pre mid post = true)
        /\ (isInscope [ptrWildcardScope w] (ptrURL u) 2 = true
            <-> exists pre mid post,
                  host = (pre ++ mid ++ post)%string
                  /\ regexp_match (scope w) pre mid post = true))
  /\ (strings.Count (url.Host u) ":" = 0 ->
        (isInscope [ptrWildcardScope w] (ptrURL u) 1 = true
         <-> exists pre mid post,
               url.Host u = (pre ++ mid ++ post)%string
               /\ regexp_match (scope w) pre mid post = true)
        /\ (isInscope [ptrWildcardScope w] (ptrURL u) 2 = true
            <-> exists pre mid post,
                  url.Host u = (pre ++ mid ++ post)%string
                  /\ regexp_match (scope w) pre mid post = true))
  /\ (forall host tail : string,
        url.Host u = (host ++ String ":" tail)%string ->
        strings.Count tail ":" = 0 ->
        tail = EmptyString \/ url.allDigits tail = false ->
        (isInscope [ptrWildcardScope w] (ptrURL u) 1 = true
         <-> exists pre mid post,
               url.Host u = (pre ++ mid ++ post)%string
               /\ regexp_match (scope w) pre mid post = true)
        /\ (isInscope [ptrWildcardScope w] (ptrURL u) 2 = true
            <-> exists pre mid post,
                  url.Host u = (pre ++ mid ++ post)%string
                  /\ regexp_match (scope w) pre mid post = true)).
Proof.
  assert (Hlvl : forall lvl, lvl <> 3 ->
            isInscope [ptrWildcardScope w] (ptrURL u) lvl
            = MatchString (scope w) (removePortFromHost u)).
  { intros lvl Hne. cbn. apply Z.eqb_neq in Hne. rewrite Hne. cbn.
    now destruct (MatchString (scope w) (removePortFromHost u)). }
  assert (H1 : isInscope [ptrWildcardScope w] (ptrURL u) 1 = true
               <-> exists pre mid post,
                     removePortFromHost u = (pre ++ mid ++ post)%string
                     /\ regexp_match (scope w) pre mid post = true).
  { rewrite Hlvl by lia. apply MatchString_spec. }
  assert (H2 : isInscope [ptrWildcardScope w] (ptrURL u) 2 = true
               <-> exists pre mid post,
                     removePortFromHost u = (pre ++ mid ++ post)%string
                     /\ regexp_match (scope w) pre mid post = true).
  { rewrite Hlvl by lia. apply MatchString_spec. }
  split; [exact H1|]. split; [exact H2|]. split; [reflexivity|].
  split; [|split; [|split]].
  - intros fuel line H. apply parseLine_scope_inv in H. apply H.
  - intros host port Hu Hd Hne.
    assert (Hp : removePortFromHost u = host).
    { rewrite (removePortFromHost_last_colon u host port Hu (allDigits_no_colon port Hd)), Hd.
      destruct port; [contradiction | reflexivity]. }
    rewrite Hp in H1, H2. split; [exact H1 | exact H2].
  - intros Hc.
    assert (Hp : removePortFromHost u = url.Host u).
    { unfold removePortFromHost. now rewrite (Port_no_colon u Hc). }
    rewrite Hp in H1, H2. split; [exact H1 | exact H2].
  - intros host tail Hu Ht Htail.
    assert (Hp : removePortFromHost u = url.Host u).
    { rewrite (removePortFromHost_last_colon u host tail Hu Ht).
      destruct Htail as [-> | ->]; reflexivity. }
    rewrite Hp in H1, H2. split; [exact H1 | exact H2].
Qed.

(** C5, as amended.  For a URL target and a freeform pattern rule: the rule
    takes part at every level, and it matches exactly when the pattern
    matches some segment of the text that [URL.String] prints for the parsed
    target.  The pattern of a freeform rule is the rule text, which begins
    with [^] and ends with [$], compiled as it is. *)
Theorem isInscope_freeform (re : Regexp) (u : url.URL) :
  (forall lvl : Z,
     isInscope [ptrRegexp re] (ptrURL u) lvl = true
     <-> exists pre mid post,
           url_String u = (pre ++ mid ++ post)%string
           /\ regexp_match re pre mid post = true)
  /\ (forall (fuel : nat) (line : string),
        parseLine fuel line true = Ok (ptrRegexp re) ->
        strings.HasPrefix line "^" = true /\ strings.HasSuffix line "$" = true
        /\ regexp_Compile line = Some re).
Proof.
  split.
  - intros lvl. rewrite <- MatchString_spec. cbn.
    now destruct (MatchString re (url_String u)).
  - intros fuel line H. apply parseLine_scope_inv in H. exact H.
Qed.

Lemma nmapRangeMatches_spec (r : NmapIPRange) (ip : net.IP) :
  nmapRangeMatches r ip = true
  <-> forall i : nat, (i < 4)%nat -> In (nth i ip 0) (get4 (Octets r) i).
Proof.
  unfold nmapRangeMatches. rewrite forallb_forall.
  assert (Hmem : forall x l, existsb (fun v => x =? v) l = true <-> In x l).
  { intros x l. rewrite existsb_exists. split.
    - intros [v [Hin Hv]]. apply Z.eqb_eq in Hv. now subst.
    - intros Hin. exists x. split; [exact Hin | apply Z.eqb_refl]. }
  split.
  - intros H i Hi. apply Hmem, H.
    destruct i as [|[|[|[|i]]]]; cbn; auto; lia.
  - intros H i Hi. apply Hmem, H.
    cbn in Hi. destruct Hi as [<-|[<-|[<-|[<-|[]]]]]; lia.
Qed.

(** C2.  For an IP-address target (a bare IP or the numeric host of a
    URL): at level 3 it matches the rule set exactly when some address rule
    is equal to it, network and octet-range rules playing no part; at
    levels 1 and 2 exactly when some address rule is equal to it, or some
    network rule contains it, or some octet-range rule allows each of the
    four bytes of its IPv4 form at the byte's position, which an address
    without an IPv4 form ([To4] is nil) never satisfies. *)
Theorem isInscope_IP_target (scopes : list value) (target : value) (ip : net.IP) :
  targetIP target = Some ip ->
  (isInscope scopes target 3 = true
   <-> exists a, In (ptrIP a) scopes /\ net.Equal a ip = true)
  /\ (forall lvl : Z, lvl = 1 \/ lvl = 2 ->
      (isInscope scopes target lvl = true
       <-> (exists a, In (ptrIP a) scopes /\ net.Equal a ip = true)
           \/ (exists n, In (ptrIPNet n) scopes /\ net.Contains n ip = true)
           \/ (exists r ip4,
                 In (ptrNmapIPRange r) scopes /\ net.To4 ip = Some ip4
                 /\ forall i : nat, (i < 4)%nat ->
                      In (nth i ip4 0) (get4 (Octets r) i)))).
Proof.
  intros Ht.
  assert (Hip : forall lvl, isInscope scopes target lvl = isInscopeIP ip scopes lvl).
  { intros lvl. destruct target; cbn in Ht; try discriminate; now inversion Ht. }
  split.
  - rewrite Hip. unfold isInscopeIP. cbn [Z.eqb Pos.eqb].
    rewrite isInscopeIP_loop3_existsb, existsb_exists. split.
    + intros [s [Hin Hs]]. destruct s; cbn in Hs; try discriminate.
      exists ip0. split; [exact Hin|].
      destruct (net.Equal ip0 ip); [reflexivity | discriminate].
    + intros [a [Hin Ha]]. exists (ptrIP a). split; [exact Hin|].
      cbn. now rewrite Ha.
  - intros lvl Hlvl. rewrite Hip. unfold isInscopeIP.
    replace (lvl =? 3) with false by (destruct Hlvl; subst; reflexivity).
    rewrite isInscopeIP_loop_existsb, existsb_exists. split.
    + intros [s [Hin Hs]]. destruct s; cbn [isInscopeIP_loop] in Hs; try discriminate.
      * right; right. destruct (net.To4 ip) as [ip4|] eqn:H4; [|discriminate].
        exists r, ip4. split; [exact Hin|]. split; [reflexivity|].
        apply nmapRangeMatches_spec.
        destruct (nmapRangeMatches r ip4); [reflexivity | discriminate Hs].
      * right; left. exists n. split; [exact Hin|].
        destruct (net.Contains n ip); [reflexivity | discriminate].
      * left. exists ip0. split; [exact Hin|].
        destruct (net.Equal ip0 ip); [reflexivity | discriminate].
    + intros [[a [Hin Ha]]|[[n [Hin Hn]]|(r & ip4 & Hin & H4 & Hr)]].
      * exists (ptrIP a). split; [exact Hin|]. cbn. now rewrite Ha.
      * exists (ptrIPNet n). split; [exact Hin|]. cbn. now rewrite Hn.
      * exists (ptrNmapIPRange r). split; [exact Hin|].
        cbn [isInscopeIP_loop]. rewrite H4.
        apply nmapRangeMatches_spec in Hr. now rewrite Hr.
Qed.

(** An address without an IPv4 form matches no octet-range rule. *)
Lemma octet_range_rule_needs_IPv4 (r : NmapIPRange) (target : value) (ip : net.IP)
    (lvl : Z) :
  targetIP target = Some ip -> net.To4 ip = None ->
  isInscope [ptrNmapIPRange r] target lvl = false.
Proof.
  intros Ht H4.
  destruct target; cbn in Ht; try discriminate; inversion Ht; subst;
    cbn; unfold isInscopeIP; destruct (lvl =? 3); cbn; now rewrite ?H4.
Qed.

End Decision.

(** ** The misconfiguration detector *)

Section Detector.

Context {lib : GoLibrary}.

(** With the flag set every entry is reported as a package name, so none is
    kept. *)
Lemma collectScopes_privateTLDs (fuel : nat) (chainMode : bool) (scopes : list Scope)
    (lines : list string) :
  collectScopes fuel chainMode scopes true lines = Ok lines.
Proof.
  revert lines; induction scopes as [|s rest IH]; intros lines; cbn [collectScopes].
  - reflexivity.
  - destruct (String.eqb (Scope_type s) "web_application"
              && negb (String.eqb (Scope_Scope s) EmptyString)); apply IH.
Qed.

(** With the detector on, no entry is ever reported as a package name: the
    branch that tests the public suffix asks for a URL value, which the
    classifier does not return for a rule. *)
Lemma isAndroidPackageName_detector_flags_nothing (fuel : nat) (chainMode : bool)
    (rawScope : string) :
  isAndroidPackageName fuel chainMode rawScope false = Ok false
  \/ isAndroidPackageName fuel chainMode rawScope false = Panic
  \/ isAndroidPackageName fuel chainMode rawScope false = OutOfFuel.
Proof.
  unfold isAndroidPackageName.
  destruct (parseLine fuel rawScope true) as [v| | |] eqn:Hp; auto.
  apply parseLine_scope_inv in Hp. destruct v; auto. contradiction.
Qed.

(** C6.  With the private-TLDs flag set, [isAndroidPackageName] returns
    true for every rule string, and [getCompanyScopes] keeps no entry of the
    program: it ends with the error for an empty in-scope list. *)
Theorem getCompanyScopes_privateTLDs_keeps_nothing
    (fuel : nat) (chainMode : bool) (pgm : Program) :
  (forall rawScope : string,
     isAndroidPackageName fuel chainMode rawScope true = Ok true)
  /\ getCompanyScopes fuel chainMode {| Pgms := [pgm] |} 0 true
     = Err ("Unable to parse any inscopes scopes from " ++ Name pgm)%string.
Proof.
  split; [reflexivity|].
  unfold getCompanyScopes. cbn [Z.ltb Z.compare Z.to_nat nth_error Pgms].
  rewrite collectScopes_privateTLDs. reflexivity.
Qed.

(** C7, as amended.  With the detector on, a rule string that classifies as
    a host name whose public suffix is registered is not flagged, whatever
    its first bytes are, and the entry is kept in the rule set. *)
Theorem isAndroidPackageName_registered_suffix_kept
    (fuel : nat) (chainMode : bool) (rawScope h : string) (lines : list string) :
  parseLine fuel rawScope true = Ok (str h) ->
  snd (publicsuffix_PublicSuffix h) = true ->
  rawScope <> EmptyString ->
  isAndroidPackageName fuel chainMode rawScope false = Ok false
  /\ collectScopes fuel chainMode
       [{| Scope_Scope := rawScope; Scope_type := "web_application" |}] false lines
     = Ok (lines ++ [rawScope]).
Proof.
  intros Hp _ Hne.
  assert (Hd : isAndroidPackageName fuel chainMode rawScope false = Ok false).
  { unfold isAndroidPackageName. now rewrite Hp. }
  split; [exact Hd|].
  cbn [collectScopes Scope_Scope Scope_type].
  apply String.eqb_neq in Hne. rewrite Hne, Hd. reflexivity.
Qed.

End Detector.

(** ** The octet-range parser *)

Section OctetRange.

Context {lib : GoLibrary}.

(** Boolean comparisons in the hypotheses, as inequalities. *)
Ltac byte_bounds :=
  repeat match goal with
  | H : (_ || _) = false |- _ => apply orb_false_iff in H; destruct H
  | H : (_ <? _) = false |- _ => apply Z.ltb_ge in H
  | H : (_ >? _) = false |- _ => rewrite Z.gtb_ltb in H; apply Z.ltb_ge in H
  end.

Lemma uint8_byte (v : Z) : 0 <= v <= 255 -> uint8 v = v.
Proof. intros H. unfold uint8. apply Z.mod_small. lia. Qed.

Lemma seqZ_cons (v high : Z) : 0 <= v <= high -> seqZ v high = v :: seqZ (v + 1) high.
Proof.
  intros H. unfold seqZ.
  replace (Z.to_nat (high + 1 - v)) with (S (Z.to_nat (high + 1 - (v + 1)))) by lia.
  cbn [seq map]. rewrite Z2Nat.id by lia.
  replace (Z.to_nat (v + 1)) with (S (Z.to_nat v)) by lia. reflexivity.
Qed.

Lemma seqZ_nil (v high : Z) : high < v -> seqZ v high = [].
Proof.
  intros H. unfold seqZ. replace (Z.to_nat (high + 1 - v)) with O by lia. reflexivity.
Qed.

(** The loop over a range that ends below 255 returns the values of the
    range, by induction on the number of values left. *)
Lemma rangeLoop_below255 (n fuel : nat) (v high : Z) (vals : list Z) :
  (n < fuel)%nat -> 0 <= v -> high < 255 -> high + 1 - v = Z.of_nat n ->
  rangeLoop fuel v high vals = Some (vals ++ seqZ v high).
Proof.
  revert fuel v vals; induction n as [|n IH]; intros fuel v vals Hf Hv Hh Hn;
    destruct fuel as [|fuel]; try lia; cbn [rangeLoop].
  - replace (v <=? high) with false by (symmetry; apply Z.leb_gt; lia).
    rewrite seqZ_nil by lia. now rewrite app_nil_r.
  - replace (v <=? high) with true by (symmetry; apply Z.leb_le; lia).
    rewrite uint8_byte by lia. rewrite IH by lia.
    rewrite (seqZ_cons v high) by lia. now rewrite <- app_assoc.
Qed.

(** The loop over a range that ends at 255 never returns: the counter
    wraps from 255 to 0 and the test [v <= 255] always holds. *)
Lemma rangeLoop_255_never_returns (fuel : nat) (v : Z) (vals : list Z) :
  0 <= v <= 255 -> rangeLoop fuel v 255 vals = None.
Proof.
  revert v vals; induction fuel as [|fuel IH]; intros v vals Hv; cbn [rangeLoop].
  - reflexivity.
  - replace (v <=? 255) with true by (symmetry; apply Z.leb_le; lia).
    apply IH. unfold uint8. pose proof (Z.mod_pos_bound (v + 1) 256). lia.
Qed.

(** One turn of the loop of [parseNmapOctet], on a segment that does not
    end at 255. *)
Lemma parseNmapOctet_loop_step (fuel : nat) (seg : string) (rest : list string)
    (vals : list Z) :
  (256 <= fuel)%nat ->
  endsBelow255 (strings_TrimSpace seg) = true ->
  (illFormed (strings_TrimSpace seg) = true ->
   isErr (parseNmapOctet_loop fuel (seg :: rest) vals) = true)
  /\ (illFormed (strings_TrimSpace seg) = false ->
      parseNmapOctet_loop fuel (seg :: rest) vals
      = parseNmapOctet_loop fuel rest (vals ++ valuesOf (strings_TrimSpace seg))).
Proof.
  intros Hfuel. cbn [parseNmapOctet_loop].
  set (t := strings_TrimSpace seg).
  destruct (String.eqb t "-") eqn:Hdash.
  { apply String.eqb_eq in Hdash. rewrite Hdash. discriminate. }
  unfold endsBelow255, illFormed, notInteger, outsideByte, lowAboveHigh, valuesOf,
    numberTexts, lowOf, highOf, boundValue, isRange.
  destruct (strings.Contains t "-") eqn:Hrange; cbn [negb orb andb filter].
  - fold (lowText t); fold (highText t). unfold parseBound.
    destruct (String.eqb (highText t) EmptyString) eqn:Hh; [discriminate|].
    cbn [negb andb filter existsb orb].
    destruct (strconv.Atoi (highText t)) as [h|] eqn:Hah.
    2:{ intros _. destruct (String.eqb (lowText t) EmptyString) eqn:Hl;
          cbn [negb filter existsb orb bind].
        - rewrite Hah. cbn. split; [reflexivity | discriminate].
        - rewrite Hah.
          destruct (strconv.Atoi (lowText t)) as [l|]; cbn;
            [destruct ((l <? 0) || (l >? 255)); cbn|];
            (split; [reflexivity | rewrite ?orb_true_r; discriminate]). }
    intros H255. apply negb_true_iff, Z.eqb_neq in H255.
    destruct (String.eqb (lowText t) EmptyString) eqn:Hl;
      cbn [negb filter existsb orb bind]; rewrite ?Hah.
    + destruct ((h <? 0) || (h >? 255)) eqn:Hhr; cbn [orb bind].
      { split; [reflexivity | discriminate]. }
      byte_bounds. rewrite !uint8_byte by lia.
      replace (0 >? h) with false by (symmetry; rewrite Z.gtb_ltb; apply Z.ltb_ge; lia).
      rewrite (rangeLoop_below255 (Z.to_nat (h + 1 - 0))) by lia.
      split; [discriminate | reflexivity].
    + destruct (strconv.Atoi (lowText t)) as [l|] eqn:Hal; cbn [orb bind].
      2:{ split; [reflexivity | discriminate]. }
      destruct ((l <? 0) || (l >? 255)) eqn:Hlr; cbn [orb bind].
      { split; [reflexivity | discriminate]. }
      destruct ((h <? 0) || (h >? 255)) eqn:Hhr; cbn [orb bind].
      { split; [reflexivity | discriminate]. }
      byte_bounds. rewrite !uint8_byte by lia.
      destruct (l >? h) eqn:Hlh.
      { split; [reflexivity | discriminate]. }
      byte_bounds.
      rewrite (rangeLoop_below255 (Z.to_nat (h + 1 - l))) by lia.
      split; [discriminate | reflexivity].
  - intros _. cbn [existsb orb].
    destruct (strconv.Atoi t) as [v|] eqn:Ha.
    2:{ split; [reflexivity | discriminate]. }
    destruct ((v <? 0) || (v >? 255)) eqn:Hvr; cbn [orb].
    { split; [reflexivity | discriminate]. }
    byte_bounds. rewrite uint8_byte by lia.
    destruct (String.eqb t EmptyString) eqn:Het.
    { apply String.eqb_eq in Het. rewrite Het in Ha. discriminate. }
    split; [discriminate | reflexivity].
Qed.

Lemma isErr_inv {A : Type} (r : outcome A) : isErr r = true -> exists e, r = Err e.
Proof. destruct r; try discriminate. eauto. Qed.

(** The loop of [parseNmapOctet] over segments none of which ends at 255:
    it fails when one of them is ill-formed and returns the values of all
    of them otherwise. *)
Lemma parseNmapOctet_loop_below255 (fuel : nat) (segs : list string) (vals : list Z) :
  (256 <= fuel)%nat ->
  forallb endsBelow255 (map strings_TrimSpace segs) = true ->
  if existsb illFormed (map strings_TrimSpace segs)
  then isErr (parseNmapOctet_loop fuel segs vals) = true
  else parseNmapOctet_loop fuel segs vals
       = Ok (vals ++ flat_map valuesOf (map strings_TrimSpace segs)).
Proof.
  intros Hfuel. revert vals.
  induction segs as [|seg rest IH]; intros vals Hends.
  - cbn. now rewrite app_nil_r.
  - cbn [map forallb] in Hends. apply andb_true_iff in Hends as [Hseg Hrest].
    destruct (parseNmapOctet_loop_step fuel seg rest vals Hfuel Hseg) as [Hbad Hgood].
    cbn [map existsb flat_map].
    destruct (illFormed (strings_TrimSpace seg)) eqn:Hill; cbn [orb].
    + now apply Hbad.
    + rewrite (Hgood eq_refl).
      specialize (IH (vals ++ valuesOf (strings_TrimSpace seg)) Hrest).
      destruct (existsb illFormed (map strings_TrimSpace rest)); [exact IH|].
      rewrite IH. now rewrite <- app_assoc.
Qed.

Lemma parseNmapOctet_below255 (fuel : nat) (part : string) :
  (256 <= fuel)%nat ->
  forallb endsBelow255 (segmentsOf part) = true ->
  if existsb illFormed (segmentsOf part)
  then exists e, parseNmapOctet fuel part = Err e
  else parseNmapOctet fuel part = Ok (octetValues part).
Proof.
  intros Hfuel Hends. unfold parseNmapOctet, octetValues, segmentsOf in *.
  pose proof (parseNmapOctet_loop_below255 fuel (strings.Split part ",") [] Hfuel Hends)
    as H.
  destruct (existsb illFormed (map strings_TrimSpace (strings.Split part ",")));
    [now apply isErr_inv | exact H].
Qed.

(** A segment that is a range ending at 255, written or by default, with a
    valid low bound: the parser does not return. *)
Lemma parseNmapOctet_loop_255_never_returns (fuel : nat) (seg : string)
    (rest : list string) (vals : list Z) (low : Z) :
  let t := if String.eqb (strings_TrimSpace seg) "-" then "0-255"
           else strings_TrimSpace seg in
  isRange t = true ->
  parseBound (lowText t) 0 = Ok low ->
  parseBound (highText t) 255 = Ok 255 ->
  parseNmapOctet_loop fuel (seg :: rest) vals = OutOfFuel.
Proof.
  intros t Hrange Hlow Hhigh. cbn [parseNmapOctet_loop]. fold t.
  unfold isRange in Hrange. rewrite Hrange.
  fold (lowText t). fold (highText t).
  change (uint8 0) with 0. change (uint8 255) with 255.
  rewrite Hlow, Hhigh. cbn [bind].
  assert (Hb : 0 <= low <= 255).
  { unfold parseBound in Hlow.
    destruct (negb (String.eqb (lowText t) EmptyString)).
    - destruct (strconv.Atoi (lowText t)) as [l|]; [|discriminate].
      destruct ((l <? 0) || (l >? 255)) eqn:Hl; [discriminate|].
      inversion Hlow. unfold uint8. pose proof (Z.mod_pos_bound l 256). lia.
    - inversion Hlow. lia. }
  replace (low >? 255) with false
    by (symmetry; rewrite Z.gtb_ltb; apply Z.ltb_ge; lia).
  now rewrite rangeLoop_255_never_returns.
Qed.

(** C8, as amended.  On a token none of whose ranges ends at 255, the
    octet-range parser returns, and it fails exactly when the number of
    dot-separated parts is not 4, or some segment has a text that is not an
    integer, or an integer outside 0..255, or a low bound above its high
    bound; on success it yields, for each of the 4 positions, the list of the
    allowed byte values, a missing low bound standing for 0. *)
Theorem parseNmapIPRange_below255 (fuel : nat) (line : string) :
  (256 <= fuel)%nat ->
  forallb endsBelow255 (allSegments line) = true ->
  if negb (List.length (strings.Split line ".") =? 4)%nat
     || existsb (fun t => notInteger t || outsideByte t || lowAboveHigh t)
                (allSegments line)
  then exists e, parseNmapIPRange fuel line = Err e
  else exists p0 p1 p2 p3,
         strings.Split line "." = [p0; p1; p2; p3]
         /\ parseNmapIPRange fuel line
            = Ok {| Octets := (octetValues p0, octetValues p1,
                               octetValues p2, octetValues p3);
                    Raw := line |}.
Proof.
  intros Hfuel. unfold parseNmapIPRange, allSegments.
  change (fun t => notInteger t || outsideByte t || lowAboveHigh t) with illFormed.
  destruct (strings.Split line ".") as [|p0 [|p1 [|p2 [|p3 [|p4 ps]]]]];
    try (intros _; cbn [List.length Nat.eqb negb orb]; eauto; fail).
  cbn [List.length Nat.eqb negb orb flat_map]. rewrite app_nil_r.
  rewrite !forallb_app, !existsb_app, !andb_true_iff.
  intros (H0 & H1 & H2 & H3).
  pose proof (parseNmapOctet_below255 fuel p0 Hfuel H0) as P0.
  pose proof (parseNmapOctet_below255 fuel p1 Hfuel H1) as P1.
  pose proof (parseNmapOctet_below255 fuel p2 Hfuel H2) as P2.
  pose proof (parseNmapOctet_below255 fuel p3 Hfuel H3) as P3.
  destruct (existsb illFormed (segmentsOf p0)); cbn [orb].
  { destruct P0 as [e ->]. cbn; eauto. }
  rewrite P0. cbn [bind].
  destruct (existsb illFormed (segmentsOf p1)); cbn [orb].
  { destruct P1 as [e ->]. cbn; eauto. }
  rewrite P1. cbn [bind].
  destruct (existsb illFormed (segmentsOf p2)); cbn [orb].
  { destruct P2 as [e ->]. cbn; eauto. }
  rewrite P2. cbn [bind].
  destruct (existsb illFormed (segmentsOf p3)); cbn [orb].
  { destruct P3 as [e ->]. cbn; eauto. }
  rewrite P3. cbn [bind].
  exists p0, p1, p2, p3. split; reflexivity.
Qed.

(** *** Whatever the token, the answers of the parser are right

    The restriction to ranges that end below 255 is needed only for the
    parser to return: on every token, and with any fuel, an error is
    answered only to a token with a wrong part count or an ill-formed
    segment, and a result only to a well-formed token, with its values. *)

Lemma rangeLoop_sound (fuel : nat) (v high : Z) (vals vals' : list Z) :
  0 <= v <= 255 -> 0 <= high <= 255 ->
  rangeLoop fuel v high vals = Some vals' -> vals' = vals ++ seqZ v high.
Proof.
  intros Hv Hh. destruct (Z.eq_dec high 255) as [->|Hne].
  { now rewrite rangeLoop_255_never_returns. }
  revert v vals Hv; induction fuel as [|fuel IH]; intros v vals Hv; cbn [rangeLoop].
  - discriminate.
  - destruct (v <=? high) eqn:Hle.
    + apply Z.leb_le in Hle. rewrite uint8_byte by lia. intros H.
      apply IH in H; [|lia]. rewrite H, (seqZ_cons v high) by lia.
      now rewrite <- app_assoc.
    + apply Z.leb_gt in Hle. intros H. inversion H.
      rewrite seqZ_nil by lia. now rewrite app_nil_r.
Qed.

Lemma parseBound_inv (text : string) (default b : Z) :
  0 <= default <= 255 ->
  parseBound text default = Ok b ->
  0 <= b <= 255 /\ boundValue text default = b
  /\ match strconv.Atoi text with
     | Some v => String.eqb text EmptyString || negb ((v <? 0) || (v >? 255)) = true
     | None => String.eqb text EmptyString = true
     end.
Proof.
  intros Hd. unfold parseBound, boundValue.
  destruct (String.eqb text EmptyString) eqn:He; cbn [negb].
  - intros H; inversion H; subst. destruct (strconv.Atoi text); auto.
  - destruct (strconv.Atoi text) as [l|]; [|discriminate].
    destruct ((l <? 0) || (l >? 255)) eqn:Hl; [discriminate|].
    intros H; inversion H. byte_bounds. rewrite uint8_byte by lia. auto.
Qed.

Lemma parseBound_err (text : string) (default : Z) (e : string) :
  parseBound text default = Err e ->
  String.eqb text EmptyString = false
  /\ match strconv.Atoi text with
     | Some v => (v <? 0) || (v >? 255) = true
     | None => True
     end.
Proof.
  unfold parseBound.
  destruct (String.eqb text EmptyString); cbn [negb]; [discriminate|].
  destruct (strconv.Atoi text) as [l|]; [|auto].
  destruct ((l <? 0) || (l >? 255)); [auto | discriminate].
Qed.

(** One turn of the loop, on any segment: an error for an ill-formed
    segment, or no return, or the values of a well-formed segment. *)
Lemma parseNmapOctet_loop_step_sound (fuel : nat) (seg : string) (rest : list string)
    (vals : list Z) :
  (illFormed (strings_TrimSpace seg) = true
   /\ isErr (parseNmapOctet_loop fuel (seg :: rest) vals) = true)
  \/ parseNmapOctet_loop fuel (seg :: rest) vals = OutOfFuel
  \/ (illFormed (strings_TrimSpace seg) = false
      /\ parseNmapOctet_loop fuel (seg :: rest) vals
         = parseNmapOctet_loop fuel rest (vals ++ valuesOf (strings_TrimSpace seg))).
Proof.
  destruct (String.eqb (strings_TrimSpace seg) "-") eqn:Hdash.
  { right; left.
    apply (parseNmapOctet_loop_255_never_returns fuel seg rest vals 0);
      rewrite Hdash; reflexivity. }
  cbn [parseNmapOctet_loop]. rewrite Hdash.
  set (t := strings_TrimSpace seg).
  unfold illFormed, notInteger, outsideByte, lowAboveHigh, valuesOf, numberTexts, isRange.
  destruct (strings.Contains t "-") eqn:Hrange; cbn [andb filter].
  - fold (lowText t); fold (highText t). unfold lowOf, highOf.
    change (uint8 0) with 0. change (uint8 255) with 255.
    destruct (parseBound (lowText t) 0) as [low|e| |] eqn:Hlow; cbn [bind].
    2:{ left. split; [|reflexivity]. apply parseBound_err in Hlow as [He Ha].
        rewrite He. cbn [negb existsb].
        destruct (strconv.Atoi (lowText t)); [rewrite Ha|]; cbn;
          now rewrite ?orb_true_r. }
    2,3: unfold parseBound in Hlow;
         destruct (negb (String.eqb (lowText t) EmptyString)); [|discriminate];
         destruct (strconv.Atoi (lowText t)) as [l|]; [|discriminate];
         destruct ((l <? 0) || (l >? 255)); discriminate.
    destruct (parseBound (highText t) 255) as [high|e| |] eqn:Hhigh; cbn [bind].
    2:{ left. split; [|reflexivity]. apply parseBound_err in Hhigh as [He Ha].
        rewrite He.
        destruct (negb (String.eqb (lowText t) EmptyString)); cbn [negb existsb];
          destruct (strconv.Atoi (highText t)); rewrite ?Ha; cbn;
          now rewrite ?orb_true_r. }
    2,3: unfold parseBound in Hhigh;
         destruct (negb (String.eqb (highText t) EmptyString)); [|discriminate];
         destruct (strconv.Atoi (highText t)) as [h|]; [|discriminate];
         destruct ((h <? 0) || (h >? 255)); discriminate.
    apply parseBound_inv in Hlow as (Hlb & Hlv & Hla); [|lia].
    apply parseBound_inv in Hhigh as (Hhb & Hhv & Hha); [|lia].
    rewrite Hlv, Hhv.
    destruct (low >? high) eqn:Hlh.
    { left. split; [now rewrite !orb_true_r | reflexivity]. }
    destruct (rangeLoop fuel low high vals) as [vals'|] eqn:Hloop; [|now (right; left)].
    right; right. apply rangeLoop_sound in Hloop; [|lia|lia]. subst vals'.
    split; [|reflexivity]. rewrite orb_false_r.
    destruct (String.eqb (lowText t) EmptyString), (String.eqb (highText t) EmptyString);
      cbn [negb existsb orb] in *;
      repeat match goal with
             | H : match strconv.Atoi ?x with _ => _ end |- _ =>
                 destruct (strconv.Atoi x); cbn [orb negb] in H
             end; try discriminate; cbn [orb];
      repeat match goal with
             | H : negb ?b = true |- _ => apply negb_true_iff in H; rewrite H
             end; reflexivity.
  - cbn [existsb]. unfold boundValue.
    destruct (strconv.Atoi t) as [v|] eqn:Ha.
    2:{ left. split; reflexivity. }
    destruct ((v <? 0) || (v >? 255)) eqn:Hvr.
    { left. split; reflexivity. }
    right; right. byte_bounds. rewrite uint8_byte by lia.
    destruct (String.eqb t EmptyString) eqn:Het.
    { apply String.eqb_eq in Het. rewrite Het in Ha. discriminate. }
    split; reflexivity.
Qed.

Lemma parseNmapOctet_loop_sound (fuel : nat) (segs : list string) (vals : list Z) :
  match parseNmapOctet_loop fuel segs vals with
  | Err _ => existsb illFormed (map strings_TrimSpace segs) = true
  | Ok out =>
      existsb illFormed (map strings_TrimSpace segs) = false
      /\ out = vals ++ flat_map valuesOf (map strings_TrimSpace segs)
  | Panic => False
  | OutOfFuel => True
  end.
Proof.
  revert vals; induction segs as [|seg rest IH]; intros vals.
  - cbn. now rewrite app_nil_r.
  - cbn [map existsb flat_map].
    destruct (parseNmapOctet_loop_step_sound fuel seg rest vals)
      as [[Hill Herr]|[Hout|[Hill Hstep]]].
    + rewrite Hill. apply isErr_inv in Herr as [e ->]. reflexivity.
    + now rewrite Hout.
    + rewrite Hill, Hstep. cbn [orb].
      specialize (IH (vals ++ valuesOf (strings_TrimSpace seg))).
      destruct (parseNmapOctet_loop fuel rest (vals ++ valuesOf (strings_TrimSpace seg)));
        auto.
      destruct IH as [-> ->]. now rewrite <- app_assoc.
Qed.

Lemma parseNmapOctet_sound (fuel : nat) (part : string) :
  match parseNmapOctet fuel part with
  | Err _ => existsb illFormed (segmentsOf part) = true
  | Ok out => existsb illFormed (segmentsOf part) = false /\ out = octetValues part
  | Panic => False
  | OutOfFuel => True
  end.
Proof. apply (parseNmapOctet_loop_sound fuel (strings.Split part ",") []). Qed.

(** The answers of [parseNmapIPRange], on every token and with any fuel. *)
Lemma parseNmapIPRange_sound (fuel : nat) (line : string) :
  match parseNmapIPRange fuel line with
  | Err _ =>
      negb (List.length (strings.Split line ".") =? 4)%nat
      || existsb illFormed (allSegments line) = true
  | Ok r =>
      negb (List.length (strings.Split line ".") =? 4)%nat
      || existsb illFormed (allSegments line) = false
      /\ exists p0 p1 p2 p3,
           strings.Split line "." = [p0; p1; p2; p3]
           /\ r = {| Octets := (octetValues p0, octetValues p1,
                                octetValues p2, octetValues p3);
                     Raw := line |}
  | Panic => False
  | OutOfFuel => True
  end.
Proof.
  unfold parseNmapIPRange, allSegments.
  destruct (strings.Split line ".") as [|p0 [|p1 [|p2 [|p3 [|p4 ps]]]]];
    try reflexivity.
  cbn [List.length Nat.eqb negb orb flat_map]. rewrite app_nil_r, !existsb_app.
  pose proof (parseNmapOctet_sound fuel p0) as P0.
  pose proof (parseNmapOctet_sound fuel p1) as P1.
  pose proof (parseNmapOctet_sound fuel p2) as P2.
  pose proof (parseNmapOctet_sound fuel p3) as P3.
  destruct (parseNmapOctet fuel p0) as [o0|e| |]; cbn [bind]; auto.
  2:{ now rewrite P0. }
  destruct P0 as [-> ->]. cbn [orb].
  destruct (parseNmapOctet fuel p1) as [o1|e| |]; cbn [bind]; auto.
  2:{ now rewrite P1. }
  destruct P1 as [-> ->]. cbn [orb].
  destruct (parseNmapOctet fuel p2) as [o2|e| |]; cbn [bind]; auto.
  2:{ now rewrite P2. }
  destruct P2 as [-> ->]. cbn [orb].
  destruct (parseNmapOctet fuel p3) as [o3|e| |]; cbn [bind]; auto.
  destruct P3 as [-> ->]. split; [reflexivity|].
  exists p0, p1, p2, p3. split; reflexivity.
Qed.

End OctetRange.

(** ** The statements at concrete inputs, on the sample library *)

Module Examples.

#[local] Existing Instance Sample.library.

Import Sample.

(** The classifier on the texts used below. *)
Example parseLine_rule_host :
  parseLine 0 "example.com" true = Ok (str "example.com").
Proof. reflexivity. Qed.

Example parseLine_target_host :
  parseLine 0 "internal.example.com" false = Ok (ptrURL (host "internal.example.com")).
Proof. reflexivity. Qed.

Example parseLine_target_numeric_host :
  parseLine 0 "https://192.168.1.9/x" false
  = Ok (ptrURLWithIPAddressHost
          {| rawURL := "https://192.168.1.9/x";
             IPhost := net.v4InV6Prefix ++ [192; 168; 1; 9] |}).
Proof. reflexivity. Qed.

Example parseLine_rule_network : parseLine 0 "10.0.0.0/24" true = Ok (ptrIPNet net24).
Proof. reflexivity. Qed.

Example parseLine_rule_with_path :
  parseLine 0 "example.com/admin" true = Err ErrInvalidFormat.
Proof. reflexivity. Qed.

(** A network rule matches an address of the network at levels 1 and 2
    and not at level 3. *)
Example network_rule_by_level :
  isInscope [ptrIPNet net24] (ptrIP ip_10_0_0_5) 1 = true
  /\ isInscope [ptrIPNet net24] (ptrIP ip_10_0_0_5) 2 = true
  /\ isInscope [ptrIPNet net24] (ptrIP ip_10_0_0_5) 3 = false.
Proof. repeat split; reflexivity. Qed.

(** An octet-range rule, once built, matches byte by byte. *)
Example octet_range_rule :
  isInscope [ptrNmapIPRange range_10_0_any_5_10] (ptrIP ip_10_0_7_10) 1 = true
  /\ isInscope [ptrNmapIPRange range_10_0_any_5_10]
               (ptrIP (net.v4InV6Prefix ++ [10; 0; 7; 11])) 1 = false.
Proof. split; reflexivity. Qed.

(** An exact-host rule takes subdomains in at level 1 only. *)
Example exact_host_by_level :
  isInscope [str "example.com"] (ptrURL (host "a.b.example.com")) 1 = true
  /\ isInscope [str "example.com"] (ptrURL (host "a.b.example.com")) 2 = false
  /\ isInscope [str "example.com"] (ptrURL (host "a.b.example.com")) 3 = false.
Proof. repeat split; reflexivity. Qed.

(** A wildcard rule is searched for anywhere in the host. *)
Example wildcard_is_unanchored :
  exists w,
    parseLine 0 "*.example.com" true = Ok (ptrWildcardScope w)
    /\ isInscope [ptrWildcardScope w] (ptrURL (host "api.example.com")) 1 = true
    /\ isInscope [ptrWildcardScope w] (ptrURL (host "api.example.com")) 3 = false
    /\ isInscope [ptrWildcardScope w]
                 (ptrURL (host "x.example.com.attacker.net")) 2 = true.
Proof. eexists. repeat split; reflexivity. Qed.

(** The range [0-255] of the specification's own example, and the lone
    hyphen, never come out of the parser. *)
Lemma parseNmapIPRange_upper_255_never_returns (fuel : nat) :
  parseNmapIPRange fuel "10.0.0-255.5,10" = OutOfFuel
  /\ parseNmapOctet fuel "-" = OutOfFuel
  /\ parseNmapOctet fuel "250-" = OutOfFuel.
Proof.
  repeat split.
  - unfold parseNmapIPRange. cbn [strings.Split Ascii.eqb Bool.eqb].
    change (parseNmapOctet fuel "10") with (Ok (A := list Z) [10]).
    change (parseNmapOctet fuel "0") with (Ok (A := list Z) [0]).
    cbn [bind]. unfold parseNmapOctet. cbn [strings.Split Ascii.eqb Bool.eqb].
    rewrite (parseNmapOctet_loop_255_never_returns fuel "0-255" [] [] 0);
      reflexivity.
  - unfold parseNmapOctet. cbn [strings.Split Ascii.eqb Bool.eqb].
    rewrite (parseNmapOctet_loop_255_never_returns fuel "-" [] [] 0); reflexivity.
  - unfold parseNmapOctet. cbn [strings.Split Ascii.eqb Bool.eqb].
    rewrite (parseNmapOctet_loop_255_never_returns fuel "250-" [] [] 250); reflexivity.
Qed.

(** *** Instances of the theorems *)

(** C1 at the example of the specification: in scope [example.com], out
    of scope [internal.example.com], target [internal.example.com], level
    1: the target matches both sets and is Excluded. *)
Lemma parseScopes_out_of_scope_wins_witness :
  isInscope [str "internal.example.com"] (ptrURL (host "internal.example.com")) 1 = true
  /\ isInscope [str "example.com"] (ptrURL (host "internal.example.com")) 1 = true
  /\ parseScopes [str "example.com"] [str "internal.example.com"]
                 (ptrURL (host "internal.example.com")) 1 1 true
     = (false, false).
Proof.
  split; [reflexivity|]. split; [reflexivity|].
  apply (parseScopes_out_of_scope_wins
           [str "internal.example.com"] (ptrURL (host "internal.example.com")) 1).
  reflexivity.
Defined.

(** C2 at the address [10.0.0.5] and the rule [10.0.0.0/24]: the match at
    level 1 comes from a network rule that contains the address. *)
Lemma isInscope_IP_target_witness :
  targetIP (ptrIP ip_10_0_0_5) = Some ip_10_0_0_5
  /\ ((exists a, In (ptrIP a) [ptrIPNet net24] /\ net.Equal a ip_10_0_0_5 = true)
      \/ (exists n, In (ptrIPNet n) [ptrIPNet net24]
                    /\ net.Contains n ip_10_0_0_5 = true)
      \/ (exists r ip4,
            In (ptrNmapIPRange r) [ptrIPNet net24] /\ net.To4 ip_10_0_0_5 = Some ip4
            /\ forall i : nat, (i < 4)%nat -> In (nth i ip4 0) (get4 (Octets r) i))).
Proof.
  split; [reflexivity|].
  apply (proj2 (isInscope_IP_target [ptrIPNet net24] (ptrIP ip_10_0_0_5) ip_10_0_0_5
                                    eq_refl) 1 (or_introl eq_refl)).
  reflexivity.
Defined.

(** C3 at the target [https://a.b.example.com:8443]: the port and its
    colon are taken off before the comparison, so that the rule
    [a.b.example.com] matches at level 2 and the rule [example.com] matches
    at level 1. *)
Lemma isInscope_exact_host_witness :
  url.Host (host "a.b.example.com:8443")
  = ("a.b.example.com" ++ String ":" "8443")%string
  /\ url.allDigits "8443" = true
  /\ "8443" <> EmptyString
  /\ isInscope [str "a.b.example.com"] (ptrURL (host "a.b.example.com:8443")) 2 = true
  /\ isInscope [str "example.com"] (ptrURL (host "a.b.example.com:8443")) 1 = true.
Proof.
  split; [reflexivity|]. split; [reflexivity|]. split; [discriminate|]. split.
  - destruct (isInscope_exact_host (host "a.b.example.com:8443") "a.b.example.com")
      as (_ & _ & _ & Hport & _).
    destruct (Hport "a.b.example.com" "8443" eq_refl eq_refl) as (_ & L2 & _);
      [discriminate|].
    apply L2. reflexivity.
  - destruct (isInscope_exact_host (host "a.b.example.com:8443") "example.com")
      as (_ & _ & _ & Hport & _).
    destruct (Hport "a.b.example.com" "8443" eq_refl eq_refl) as (L1 & _);
      [discriminate|].
    apply L1. exists "a.b.". reflexivity.
Defined.

(** C4 at the rule [*.example.com], and at the target
    [https://api.example.com:8443], whose port is taken off before the
    search. *)
Lemma isInscope_wildcard_witness :
  parseLine 0 "*.example.com" true
  = Ok (ptrWildcardScope any_dot_example_com)
  /\ regexp_Compile (strings.Replace (strings.Replace "*.example.com" "." "\.") "*" ".*")
     = Some (scope any_dot_example_com)
  /\ url.Host (host "api.example.com:8443")
     = ("api.example.com" ++ String ":" "8443")%string
  /\ url.allDigits "8443" = true
  /\ "8443" <> EmptyString
  /\ isInscope [ptrWildcardScope any_dot_example_com]
               (ptrURL (host "api.example.com:8443")) 1 = true.
Proof.
  split; [reflexivity|]. split.
  - destruct (isInscope_wildcard any_dot_example_com (host "api.example.com"))
      as (_ & _ & _ & Hline & _).
    apply (Hline 0%nat "*.example.com"). reflexivity.
  - split; [reflexivity|]. split; [reflexivity|]. split; [discriminate|].
    destruct (isInscope_wildcard any_dot_example_com (host "api.example.com:8443"))
      as (_ & _ & _ & _ & Hport & _).
    destruct (Hport "api.example.com" "8443" eq_refl eq_refl) as (L1 & _);
      [discriminate|].
    apply L1. exists EmptyString, "api.example.com", EmptyString. split; reflexivity.
Defined.

(** C9 at two rules in both orders. *)
Lemma isInscope_Permutation_witness :
  Permutation [str "example.com"; ptrIPNet net24] [ptrIPNet net24; str "example.com"]
  /\ isInscope [str "example.com"; ptrIPNet net24] (ptrURL (host "example.com")) 2
     = isInscope [ptrIPNet net24; str "example.com"] (ptrURL (host "example.com")) 2.
Proof.
  split; [apply perm_swap|].
  apply (isInscope_Permutation
           [str "example.com"; ptrIPNet net24] [ptrIPNet net24; str "example.com"]
           (ptrURL (host "example.com")) 2).
  apply perm_swap.
Defined.

(** C5: the target text [example.com] becomes the URL that prints as
    [https://example.com]; the pattern [^example\.com$] matches the text
    of the target and the rule does not match the target. *)
Lemma freeform_pattern_is_not_matched_against_the_input_text :
  parseLine 0 "example.com" false = Ok (ptrURL (host "example.com"))
  /\ url_String (host "example.com") = "https://example.com"
  /\ parseLine 0 "^example\.com$" true
     = Ok (ptrRegexp anchored_example_com)
  /\ MatchString anchored_example_com "example.com" = true
  /\ isInscope [ptrRegexp anchored_example_com]
               (ptrURL (host "example.com")) 1 = false.
Proof. repeat split; reflexivity. Qed.

(** C5, as amended, at the same rule: the rule text is compiled as it is. *)
Lemma isInscope_freeform_witness :
  parseLine 0 "^example\.com$" true
  = Ok (ptrRegexp anchored_example_com)
  /\ strings.HasPrefix "^example\.com$" "^" = true
  /\ strings.HasSuffix "^example\.com$" "$" = true
  /\ regexp_Compile "^example\.com$"
     = Some anchored_example_com.
Proof.
  split; [reflexivity|].
  apply (proj2 (isInscope_freeform
                  anchored_example_com
                  (host "example.com")) 0%nat "^example\.com$").
  reflexivity.
Defined.

(** C6 at a program with the one in-scope entry [example.com]. *)
Example getCompanyScopes_privateTLDs_example :
  getCompanyScopes 0 true {| Pgms := [program [webApplication "example.com"]] |} 0 true
  = Err "Unable to parse any inscopes scopes from acme"
  /\ getCompanyScopes 0 true {| Pgms := [program [webApplication "example.com"]] |} 0 false
     = Ok (["example.com"], []).
Proof. split; reflexivity. Qed.

(** C7: [org.example.com] classifies as a host-name rule and begins with
    [org.]; with the detector on it is not flagged and stays in the rule
    set. *)
Lemma detector_keeps_org_prefix :
  parseLine 0 "org.example.com" true = Ok (str "org.example.com")
  /\ strings.HasPrefix "org.example.com" "org." = true
  /\ isAndroidPackageName 0 false "org.example.com" false = Ok false
  /\ getCompanyScopes 0 false {| Pgms := [program [webApplication "org.example.com"]] |}
                      0 false
     = Ok (["org.example.com"], []).
Proof. repeat split; reflexivity. Qed.

(** C7, as amended, at [com.example.net]. *)
Lemma isAndroidPackageName_registered_suffix_kept_witness :
  parseLine 0 "com.example.net" true = Ok (str "com.example.net")
  /\ snd (publicsuffix_PublicSuffix "com.example.net") = true
  /\ "com.example.net" <> EmptyString
  /\ isAndroidPackageName 0 false "com.example.net" false = Ok false
  /\ collectScopes 0 false [webApplication "com.example.net"] false []
     = Ok ([] ++ ["com.example.net"]).
Proof.
  split; [reflexivity|]. split; [reflexivity|]. split; [discriminate|].
  apply (isAndroidPackageName_registered_suffix_kept
           0 false "com.example.net" "com.example.net" []);
    [reflexivity | reflexivity | discriminate].
Defined.

(** C8: the token [10.0.0.5,x] has 4 parts, no integer outside 0..255 and
    no range, and the parser fails on it. *)
Lemma parseNmapIPRange_fails_on_a_non_integer :
  parseNmapIPRange 256 "10.0.0.5,x" = Err "invalid octet value"
  /\ List.length (strings.Split "10.0.0.5,x" ".") = 4%nat
  /\ existsb (fun t => outsideByte t || lowAboveHigh t) (allSegments "10.0.0.5,x")
     = false.
Proof. repeat split; reflexivity. Qed.

(** C8, as amended, at [10.0.0-254.5,10]. *)
Lemma parseNmapIPRange_below255_witness :
  (256 <= 256)%nat
  /\ forallb endsBelow255 (allSegments "10.0.0-254.5,10") = true
  /\ exists p0 p1 p2 p3,
       strings.Split "10.0.0-254.5,10" "." = [p0; p1; p2; p3]
       /\ parseNmapIPRange 256 "10.0.0-254.5,10"
          = Ok {| Octets := (octetValues p0, octetValues p1,
                             octetValues p2, octetValues p3);
                  Raw := "10.0.0-254.5,10" |}.
Proof.
  split; [apply le_n|]. split; [reflexivity|].
  exact (parseNmapIPRange_below255 256 "10.0.0-254.5,10" (le_n 256) eq_refl).
Defined.

End Examples.

(** * Further properties of the code *)

(** ** The port of a host *)

Section Port.

Context {lib : GoLibrary}.

(** X1.  A host followed by a colon and a non-empty decimal port loses the
    colon and the port, whatever the host is (it may have colons of its
    own, as a bracketed IPv6 address has). *)
Theorem removePortFromHost_strips_port (u : url.URL) (h port : string) :
  url.Host u = (h ++ String ":" port)%string ->
  url.allDigits port = true ->
  port <> EmptyString ->
  removePortFromHost u = h.
Proof.
  intros Hu Hd Hne. unfold removePortFromHost.
  rewrite (Port_colon u h port Hu (allDigits_no_colon port Hd)), Hd.
  destruct port as [|b port]; [contradiction|].
  cbn [String.length Nat.eqb negb]. rewrite Hu, length_append. cbn [String.length].
  replace (String.length h + S (S (String.length port)) - S (String.length port) - 1)%nat
    with (String.length h) by lia.
  apply substring_prefix.
Qed.

(** X2.  A host is returned as it is when it has no colon, and when what
    follows its last colon is empty or is not a decimal number: the colon
    stays in the host. *)
Theorem removePortFromHost_keeps_host (u : url.URL) :
  (strings.Count (url.Host u) ":" = 0 -> removePortFromHost u = url.Host u)
  /\ (forall h tail : string,
        url.Host u = (h ++ String ":" tail)%string ->
        strings.Count tail ":" = 0 ->
        tail = EmptyString \/ url.allDigits tail = false ->
        removePortFromHost u = url.Host u).
Proof.
  split.
  - intros H. unfold removePortFromHost, url.Port, strings.LastIndexByte.
    now rewrite LastIndexByte_from_absent.
  - intros h tail Hu Ht Htail. unfold removePortFromHost.
    rewrite (Port_colon u h tail Hu Ht).
    destruct Htail as [-> | ->]; reflexivity.
Qed.

End Port.

(** ** The classifier *)

Section ClassifierKinds.

Context {lib : GoLibrary}.

Lemma usableURL_inv (parsed : option url.URL) (u : url.URL) :
  usableURL parsed = Some u ->
  parsed = Some u /\ url.Host u <> EmptyString /\ url.Opaque u = EmptyString.
Proof.
  unfold usableURL. destruct parsed as [pu|]; [|discriminate].
  destruct (String.eqb (url.Host pu) EmptyString) eqn:Hh; [discriminate|].
  destruct (String.eqb (url.Opaque pu) EmptyString) eqn:Ho; [|discriminate].
  cbn. intros H; inversion H; subst.
  apply String.eqb_neq in Hh. apply String.eqb_eq in Ho. auto.
Qed.

Lemma parseLine_IP_URL_lineURL (line : string) (isScope : bool) :
  parseLine_IP_URL line isScope
  = match net_ParseIP line with
    | Some ip => Ok (ptrIP ip)
    | None =>
        match lineURL line with
        | Some u => parseLine_URL line isScope u
        | None => Err ErrInvalidFormat
        end
    end.
Proof.
  unfold parseLine_IP_URL, lineURL.
  destruct (net_ParseIP line); [reflexivity|].
  destruct (usableURL (url_Parse line)); [reflexivity|].
  destruct (negb (strings.HasPrefix line "https://")); [|reflexivity].
  now destruct (usableURL (url_Parse ("https://" ++ line))).
Qed.

Lemma lineURL_usable (line : string) (u : url.URL) :
  lineURL line = Some u -> url.Host u <> EmptyString /\ url.Opaque u = EmptyString.
Proof.
  unfold lineURL. destruct (usableURL (url_Parse line)) as [pu|] eqn:H1.
  - intros H; inversion H; subst. now apply usableURL_inv in H1.
  - destruct (negb (strings.HasPrefix line "https://")); [|discriminate].
    intros H. now apply usableURL_inv in H.
Qed.

(** A rule that comes out as a bare IP or a host went through the end of
    [parseLine]. *)
Lemma parseLine_scope_tail (fuel : nat) (line : string) (v : value) :
  parseLine fuel line true = Ok v ->
  match v with
  | ptrIP _ | str _ => parseLine_IP_URL line true = Ok v
  | _ => True
  end.
Proof.
  unfold parseLine.
  destruct (strings.HasPrefix line "^" && strings.HasSuffix line "$").
  { destruct (regexp_Compile line); intros H; inversion H; exact I. }
  destruct (strings.Contains line "*").
  { destruct (regexp_Compile _); intros H; inversion H; exact I. }
  destruct (isNmapIPRange line).
  { destruct (parseNmapIPRange fuel line); intros H; inversion H; exact I. }
  destruct (net_ParseCIDR line).
  { intros H; inversion H; exact I. }
  intros H. destruct v; auto.
Qed.

(** A target is an address, or a URL whose port-stripped host does not
    parse as an IP. *)
Lemma parseLine_target_tail (fuel : nat) (line : string) (target : value) :
  parseLine fuel line false = Ok target ->
  match target with
  | ptrIP _ | ptrURLWithIPAddressHost _ => True
  | _ => False
  end
  \/ exists u, target = ptrURL u /\ net_ParseIP (removePortFromHost u) = None.
Proof.
  unfold parseLine. rewrite parseLine_IP_URL_lineURL.
  destruct (net_ParseIP line); [intros H; inversion H; now left|].
  destruct (lineURL line) as [u|]; [|discriminate].
  unfold parseLine_URL; cbn [negb].
  destruct (net_ParseIP (removePortFromHost u)) eqn:Hu; intros H; inversion H.
  - now left.
  - right. eauto.
Qed.

(** X3.  A text classified as a target is an address when it parses as an
    IP; otherwise a URL with a non-empty host and no opaque part, kept
    apart with its input text when its port-stripped host parses as an IP;
    otherwise it is refused with [ErrInvalidFormat].  No rule-only kind
    comes out, and the fuel plays no part: the call always returns. *)
Theorem parseLine_target_kinds (fuel : nat) (line : string) :
  (exists ip, parseLine fuel line false = Ok (ptrIP ip) /\ net_ParseIP line = Some ip)
  \/ (exists u,
        parseLine fuel line false = Ok (ptrURL u)
        /\ net_ParseIP line = None
        /\ url.Host u <> EmptyString /\ url.Opaque u = EmptyString
        /\ net_ParseIP (removePortFromHost u) = None)
  \/ (exists u ip,
        parseLine fuel line false
        = Ok (ptrURLWithIPAddressHost {| rawURL := line; IPhost := ip |})
        /\ net_ParseIP line = None
        /\ lineURL line = Some u /\ net_ParseIP (removePortFromHost u) = Some ip)
  \/ (parseLine fuel line false = Err ErrInvalidFormat
      /\ net_ParseIP line = None /\ lineURL line = None).
Proof.
  unfold parseLine. rewrite parseLine_IP_URL_lineURL.
  destruct (net_ParseIP line) as [ip|] eqn:Hip; [left; eauto|].
  destruct (lineURL line) as [u|] eqn:Hu; [|right; right; right; auto].
  unfold parseLine_URL; cbn [negb].
  destruct (lineURL_usable line u Hu) as [Hh Ho].
  destruct (net_ParseIP (removePortFromHost u)) as [ip|] eqn:Hhost.
  - right; right; left. exists u, ip. auto.
  - right; left. exists u. auto.
Qed.

(** X4.  A text classified as a rule never gives a URL value, and the call
    never panics; a host rule is the port-stripped host of a URL that has a
    non-empty host, no opaque part and an empty or root path; the only
    error is [ErrInvalidFormat]. *)
Theorem parseLine_rule_kinds (fuel : nat) (line : string) :
  match parseLine fuel line true with
  | Ok (str h) =>
      exists u, lineURL line = Some u /\ h = removePortFromHost u
                /\ url.Host u <> EmptyString /\ url.Opaque u = EmptyString
                /\ (url.Path u = EmptyString \/ url.Path u = "/")
  | Ok (ptrURL _) | Ok (ptrURLWithIPAddressHost _) | Panic => False
  | Err e => e = ErrInvalidFormat
  | _ => True
  end.
Proof.
  destruct (parseLine fuel line true) as [v|e| |] eqn:Hp.
  - pose proof (parseLine_scope_inv fuel line v Hp) as Hinv.
    pose proof (parseLine_scope_tail fuel line v Hp) as Htail.
    destruct v; auto.
    rewrite parseLine_IP_URL_lineURL in Htail.
    destruct (net_ParseIP line); [discriminate|].
    destruct (lineURL line) as [u|] eqn:Hu; [|discriminate].
    unfold parseLine_URL in Htail; cbn [negb] in Htail.
    destruct (String.eqb (url.Path u) EmptyString) eqn:H1; cbn [orb] in Htail.
    + inversion Htail. exists u. apply String.eqb_eq in H1.
      destruct (lineURL_usable line u Hu). repeat split; auto.
    + destruct (String.eqb (url.Path u) "/") eqn:H2; [|discriminate].
      inversion Htail. exists u. apply String.eqb_eq in H2.
      destruct (lineURL_usable line u Hu). repeat split; auto.
  - revert Hp. unfold parseLine.
    destruct (strings.HasPrefix line "^" && strings.HasSuffix line "$").
    { destruct (regexp_Compile line); intros H; now inversion H. }
    destruct (strings.Contains line "*").
    { destruct (regexp_Compile _); intros H; now inversion H. }
    destruct (isNmapIPRange line).
    { destruct (parseNmapIPRange fuel line); intros H; now inversion H. }
    destruct (net_ParseCIDR line); [discriminate|].
    rewrite parseLine_IP_URL_lineURL.
    destruct (net_ParseIP line); [discriminate|].
    destruct (lineURL line) as [u|]; [|intros H; now inversion H].
    unfold parseLine_URL; cbn [negb].
    destruct (String.eqb (url.Path u) EmptyString || String.eqb (url.Path u) "/");
      intros H; now inversion H.
  - revert Hp. unfold parseLine.
    destruct (strings.HasPrefix line "^" && strings.HasSuffix line "$").
    { destruct (regexp_Compile line); discriminate. }
    destruct (strings.Contains line "*").
    { destruct (regexp_Compile _); discriminate. }
    destruct (isNmapIPRange line).
    { pose proof (parseNmapIPRange_sound fuel line) as Hs.
      destruct (parseNmapIPRange fuel line); try discriminate. contradiction. }
    destruct (net_ParseCIDR line); [discriminate|].
    rewrite parseLine_IP_URL_lineURL.
    destruct (net_ParseIP line); [discriminate|].
    destruct (lineURL line) as [u|]; [|discriminate].
    unfold parseLine_URL; cbn [negb].
    destruct (String.eqb (url.Path u) EmptyString || String.eqb (url.Path u) "/");
      discriminate.
  - exact I.
Qed.

Lemma Split_nonempty (s : string) (sep : ascii) : strings.Split s sep <> [].
Proof.
  destruct s as [|a s]; simpl; [discriminate|].
  destruct (Ascii.eqb a sep); [discriminate|].
  destruct (strings.Split s sep); discriminate.
Qed.

(** [strings.Split] gives one field more than there are separators. *)
Lemma Split_length (s : string) (sep : ascii) :
  Z.of_nat (List.length (strings.Split s sep)) = strings.Count s sep + 1.
Proof.
  induction s as [|a s IH]; cbn [strings.Split strings.Count]; [reflexivity|].
  destruct (Ascii.eqb a sep).
  - cbn [List.length]. lia.
  - pose proof (Split_nonempty s sep) as Hne.
    destruct (strings.Split s sep) as [|f fs]; [contradiction|].
    cbn [List.length] in *. lia.
Qed.

(** The errors of [parseNmapOctet]. *)
Lemma parseNmapOctet_errors (fuel : nat) (part e : string) :
  parseNmapOctet fuel part = Err e ->
  e = "invalid octet range" \/ e = "octet range low > high"
  \/ e = "invalid octet value".
Proof.
  unfold parseNmapOctet. generalize (@nil Z).
  induction (strings.Split part ",") as [|seg rest IH]; intros vals;
    cbn [parseNmapOctet_loop]; [discriminate|].
  set (t := if String.eqb (strings_TrimSpace seg) "-" then "0-255"
            else strings_TrimSpace seg).
  destruct (strings.Contains t "-").
  - unfold parseBound.
    destruct (negb (String.eqb (nth 0 (strings.SplitN2 t "-") EmptyString) EmptyString)).
    + destruct (strconv.Atoi (nth 0 (strings.SplitN2 t "-") EmptyString)) as [l|];
        cbn [bind]; [|intros H; inversion H; auto].
      destruct ((l <? 0) || (l >? 255)); cbn [bind]; [intros H; inversion H; auto|].
      destruct (negb (String.eqb (nth 1 (strings.SplitN2 t "-") EmptyString) EmptyString)).
      * destruct (strconv.Atoi (nth 1 (strings.SplitN2 t "-") EmptyString)) as [h|];
          cbn [bind]; [|intros H; inversion H; auto].
        destruct ((h <? 0) || (h >? 255)); cbn [bind]; [intros H; inversion H; auto|].
        destruct (uint8 l >? uint8 h); [intros H; inversion H; auto|].
        destruct (rangeLoop fuel (uint8 l) (uint8 h) vals); [apply IH | discriminate].
      * cbn [bind]. destruct (uint8 l >? uint8 255); [intros H; inversion H; auto|].
        destruct (rangeLoop fuel (uint8 l) (uint8 255) vals); [apply IH | discriminate].
    + cbn [bind].
      destruct (negb (String.eqb (nth 1 (strings.SplitN2 t "-") EmptyString) EmptyString)).
      * destruct (strconv.Atoi (nth 1 (strings.SplitN2 t "-") EmptyString)) as [h|];
          cbn [bind]; [|intros H; inversion H; auto].
        destruct ((h <? 0) || (h >? 255)); cbn [bind]; [intros H; inversion H; auto|].
        destruct (uint8 0 >? uint8 h); [intros H; inversion H; auto|].
        destruct (rangeLoop fuel (uint8 0) (uint8 h) vals); [apply IH | discriminate].
      * cbn [bind]. destruct (uint8 0 >? uint8 255); [intros H; inversion H; auto|].
        destruct (rangeLoop fuel (uint8 0) (uint8 255) vals); [apply IH | discriminate].
  - destruct (strconv.Atoi t) as [v|]; [|intros H; inversion H; auto].
    destruct ((v <? 0) || (v >? 255)); [intros H; inversion H; auto | apply IH].
Qed.

(** X5.  A text that passes the test of [isNmapIPRange] has exactly four
    dot-separated parts and a hyphen or a comma: behind that test,
    [parseNmapIPRange] never answers its part-count error. *)
Theorem isNmapIPRange_four_parts (line : string) :
  isNmapIPRange line = true ->
  List.length (strings.Split line ".") = 4%nat
  /\ strings.ContainsAny line "-," = true
  /\ forall fuel : nat,
       parseNmapIPRange fuel line <> Err "invalid Nmap IP range format".
Proof.
  unfold isNmapIPRange. intros H.
  destruct (strings.Count line "." =? 3) eqn:Hc; [|discriminate].
  cbn [negb] in H. apply Z.eqb_eq in Hc.
  pose proof (Split_length line ".") as Hl. rewrite Hc in Hl.
  assert (H4 : List.length (strings.Split line ".") = 4%nat) by lia.
  split; [exact H4|]. split; [exact H|].
  intros fuel. unfold parseNmapIPRange.
  destruct (strings.Split line ".") as [|p0 [|p1 [|p2 [|p3 [|p4 ps]]]]];
    try discriminate.
  assert (Hpart : forall p e, parseNmapOctet fuel p = Err e ->
                              e <> "invalid Nmap IP range format").
  { intros p e He. apply parseNmapOctet_errors in He as [-> | [-> | ->]]; discriminate. }
  destruct (parseNmapOctet fuel p0) as [o0|e0| |] eqn:E0; cbn [bind]; try discriminate.
  2:{ intros H'; inversion H'; subst. now apply (Hpart p0 _ E0). }
  destruct (parseNmapOctet fuel p1) as [o1|e1| |] eqn:E1; cbn [bind]; try discriminate.
  2:{ intros H'; inversion H'; subst. now apply (Hpart p1 _ E1). }
  destruct (parseNmapOctet fuel p2) as [o2|e2| |] eqn:E2; cbn [bind]; try discriminate.
  2:{ intros H'; inversion H'; subst. now apply (Hpart p2 _ E2). }
  destruct (parseNmapOctet fuel p3) as [o3|e3| |] eqn:E3; cbn [bind]; try discriminate.
  intros H'; inversion H'; subst. now apply (Hpart p3 _ E3).
Qed.

End ClassifierKinds.

(** ** The matcher and the decision *)

Section MatcherLaws.

Context {lib : GoLibrary}.

Lemma bytesEqual_refl (a : list Z) : net.bytesEqual a a = true.
Proof.
  unfold net.bytesEqual. rewrite Nat.eqb_refl. cbn [andb].
  induction a as [|x a IH]; cbn; [reflexivity|]. now rewrite Z.eqb_refl.
Qed.

Lemma Equal_refl (ip : net.IP) : net.Equal ip ip = true.
Proof. unfold net.Equal. rewrite Nat.eqb_refl. apply bytesEqual_refl. Qed.

Lemma HasSuffix_refl (s : string) : strings.HasSuffix s s = true.
Proof. apply HasSuffix_spec. now exists EmptyString. Qed.

Lemma existsb_filter {A : Type} (f p : A -> bool) (l : list A) :
  (forall x, f x = true -> p x = true) ->
  existsb f l = existsb f (filter p l).
Proof.
  intros H. induction l as [|x l IH]; cbn [existsb filter]; [reflexivity|].
  destruct (p x) eqn:Hp; cbn [existsb]; [now rewrite IH|].
  destruct (f x) eqn:Hf; [|exact IH]. apply H in Hf. congruence.
Qed.

Lemma existsb_impl {A : Type} (f g : A -> bool) (l : list A) :
  (forall x, f x = true -> g x = true) ->
  existsb f l = true -> existsb g l = true.
Proof.
  intros H Hf. apply existsb_exists in Hf as [x [Hin Hx]].
  apply existsb_exists. exists x. auto.
Qed.

(** One rule: what matches at a level matches at the looser levels. *)
Lemma ruleMatches_stricter (rule target : value) :
  (ruleMatches rule target 3 = true -> ruleMatches rule target 2 = true)
  /\ (ruleMatches rule target 2 = true -> ruleMatches rule target 1 = true).
Proof.
  unfold ruleMatches.
  destruct target; cbn [isInscope]; try (split; discriminate).
  - unfold isInscopeIP; cbn [Z.eqb Pos.eqb]. split; [|auto].
    destruct rule; cbn; try discriminate. auto.
  - split; destruct rule; cbn; try discriminate; auto.
    destruct (String.eqb (removePortFromHost u) s) eqn:He; [|discriminate].
    apply String.eqb_eq in He. rewrite He, HasSuffix_refl. reflexivity.
  - unfold isInscopeIP; cbn [Z.eqb Pos.eqb]. split; [|auto].
    destruct rule; cbn; try discriminate. auto.
Qed.

(** X6.  The matcher on two rule sets put together is the disjunction of
    the matcher on each: putting rules in never loses a match, and a match
    of the whole comes from one of the two. *)
Theorem isInscope_app (scopes scopes' : list value) (target : value) (lvl : Z) :
  isInscope (scopes ++ scopes') target lvl
  = isInscope scopes target lvl || isInscope scopes' target lvl.
Proof. rewrite !isInscope_existsb. apply existsb_app. Qed.

(** X7.  The levels are ordered: what a rule set matches at level 3 it
    matches at level 2, and what it matches at level 2 it matches at
    level 1. *)
Theorem isInscope_stricter_level (scopes : list value) (target : value) :
  (isInscope scopes target 3 = true -> isInscope scopes target 2 = true)
  /\ (isInscope scopes target 2 = true -> isInscope scopes target 1 = true).
Proof.
  rewrite !isInscope_existsb.
  split; apply existsb_impl; intros rule; apply ruleMatches_stricter.
Qed.

(** X8.  Only the rules of the target's kind count: an IP-address target
    (bare or as the host of a URL) is matched by the address, network and
    octet-range rules alone, a URL target by the host, wildcard and
    freeform rules alone, and levels 1 and 2 give the same answer on an
    IP-address target. *)
Theorem isInscope_rules_of_the_kind (scopes : list value) (lvl : Z) :
  (forall ip : net.IP,
     isInscope scopes (ptrIP ip) lvl
     = isInscope (filter isAddressRule scopes) (ptrIP ip) lvl
     /\ isInscope scopes (ptrIP ip) 1 = isInscope scopes (ptrIP ip) 2)
  /\ (forall x : URLWithIPAddressHost,
        isInscope scopes (ptrURLWithIPAddressHost x) lvl
        = isInscope (filter isAddressRule scopes) (ptrIP (IPhost x)) lvl)
  /\ (forall u : url.URL,
        isInscope scopes (ptrURL u) lvl
        = isInscope (filter isHostRule scopes) (ptrURL u) lvl).
Proof.
  assert (Hip : forall ip, isInscope scopes (ptrIP ip) lvl
                           = isInscope (filter isAddressRule scopes) (ptrIP ip) lvl).
  { intros ip. rewrite !isInscope_existsb. apply existsb_filter.
    intros rule. unfold ruleMatches; cbn [isInscope]; unfold isInscopeIP.
    destruct (lvl =? 3), rule; cbn; auto; discriminate. }
  repeat split.
  - apply Hip.
  - intros x. change (isInscope scopes (ptrURLWithIPAddressHost x) lvl)
      with (isInscope scopes (ptrIP (IPhost x)) lvl). apply Hip.
  - intros u. rewrite !isInscope_existsb. apply existsb_filter.
    intros rule. unfold ruleMatches; cbn [isInscope].
    destruct rule; cbn; auto; discriminate.
Qed.

(** X9.  A text listed as a rule is in scope as a target: when it
    classifies as a host rule and, as a target, as a URL, every rule set
    with that rule matches the target at levels 1, 2 and 3. *)
Theorem listed_host_is_in_scope (fuel fuel' : nat) (line h : string) (u : url.URL)
    (scopes : list value) (lvl : Z) :
  parseLine fuel line true = Ok (str h) ->
  parseLine fuel' line false = Ok (ptrURL u) ->
  In (str h) scopes ->
  lvl = 1 \/ lvl = 2 \/ lvl = 3 ->
  isInscope scopes (ptrURL u) lvl = true.
Proof.
  intros Hr Ht Hin Hlvl.
  apply parseLine_scope_tail in Hr. rewrite parseLine_IP_URL_lineURL in Hr.
  unfold parseLine in Ht. rewrite parseLine_IP_URL_lineURL in Ht.
  destruct (net_ParseIP line); [discriminate|].
  destruct (lineURL line) as [pu|]; [|discriminate].
  unfold parseLine_URL in Hr, Ht. cbn [negb] in Hr, Ht.
  destruct (net_ParseIP (removePortFromHost pu)); [discriminate|].
  inversion Ht; subst pu.
  destruct (String.eqb (url.Path u) EmptyString || String.eqb (url.Path u) "/");
    [|discriminate].
  inversion Hr as [Hh].
  apply isInscope_exists. exists (str (removePortFromHost u)).
  split; [now rewrite Hh|].
  unfold ruleMatches. destruct Hlvl as [-> | [-> | ->]]; cbn;
    now rewrite ?HasSuffix_refl, ?String.eqb_refl.
Qed.

(** X10.  A text that classifies as an address rule classifies as the same
    address as a target, and every rule set with that rule matches it at
    every level. *)
Theorem listed_address_is_in_scope (fuel : nat) (line : string) (ip : net.IP) :
  parseLine fuel line true = Ok (ptrIP ip) ->
  (forall fuel' : nat, parseLine fuel' line false = Ok (ptrIP ip))
  /\ (forall (scopes : list value) (lvl : Z),
        In (ptrIP ip) scopes -> isInscope scopes (ptrIP ip) lvl = true).
Proof.
  intros Hr. apply parseLine_scope_inv in Hr. split.
  - intros fuel'. unfold parseLine, parseLine_IP_URL. now rewrite Hr.
  - intros scopes lvl Hin. apply isInscope_exists. exists (ptrIP ip).
    split; [exact Hin|]. unfold ruleMatches; cbn [isInscope]; unfold isInscopeIP.
    destruct (lvl =? 3); cbn; now rewrite Equal_refl.
Qed.

(** X11.  A host rule whose text parses as an IP address (a rule written
    as a URL with a numeric host) is dead at levels 2 and 3: alone, it
    matches no text classified as a target. *)
Theorem numeric_host_rule_is_dead (fuel : nat) (line h : string) (ip : net.IP)
    (target : value) (lvl : Z) :
  net_ParseIP h = Some ip ->
  parseLine fuel line false = Ok target ->
  lvl = 2 \/ lvl = 3 ->
  isInscope [str h] target lvl = false.
Proof.
  intros Hh Ht Hlvl.
  destruct (parseLine_target_tail fuel line target Ht) as [Hk|[u [-> Hu]]].
  - destruct target; try contradiction; cbn; unfold isInscopeIP;
      destruct (lvl =? 3); reflexivity.
  - cbn. destruct Hlvl as [-> | ->]; cbn;
      destruct (String.eqb (removePortFromHost u) h) eqn:He; try reflexivity;
      apply String.eqb_eq in He; congruence.
Qed.

(** X12.  The decision follows the rule sets in one direction each: rules
    put into the out-of-scope set never bring a target in, and rules put
    into the in-scope set never put a target out. *)
Theorem parseScopes_monotone
    (inscopeScopes noscopeScopes more : list value) (target : value)
    (inscopeExplicitLevel noscopeExplicitLevel : Z) (includeUnsure : bool) :
  (fst (parseScopes inscopeScopes (noscopeScopes ++ more) target
                    inscopeExplicitLevel noscopeExplicitLevel includeUnsure) = true ->
   fst (parseScopes inscopeScopes noscopeScopes target
                    inscopeExplicitLevel noscopeExplicitLevel includeUnsure) = true)
  /\ (fst (parseScopes inscopeScopes noscopeScopes target
                       inscopeExplicitLevel noscopeExplicitLevel includeUnsure) = true ->
      fst (parseScopes (inscopeScopes ++ more) noscopeScopes target
                       inscopeExplicitLevel noscopeExplicitLevel includeUnsure) = true).
Proof.
  unfold parseScopes, isOutOfScope.
  rewrite (isInscope_existsb (noscopeScopes ++ more)),
          (isInscope_existsb (inscopeScopes ++ more)), !existsb_app,
          <- !isInscope_existsb.
  destruct (isInscope noscopeScopes target noscopeExplicitLevel),
           (isInscope inscopeScopes target inscopeExplicitLevel),
           (isInscope more target noscopeExplicitLevel),
           (isInscope more target inscopeExplicitLevel),
           includeUnsure; cbn; auto.
Qed.

End MatcherLaws.

(** ** The values of an octet-range rule *)

(** Boolean comparisons of the hypotheses, as inequalities. *)
Ltac bool_bounds :=
  repeat match goal with
  | H : (_ || _) = false |- _ => apply orb_false_iff in H; destruct H
  | H : (_ && _) = true |- _ => apply andb_true_iff in H; destruct H
  | H : (_ <? _) = false |- _ => apply Z.ltb_ge in H
  | H : (_ >? _) = false |- _ => rewrite Z.gtb_ltb in H; apply Z.ltb_ge in H
  | H : (_ <=? _) = true |- _ => apply Z.leb_le in H
  end.

Section OctetValues.

Context {lib : GoLibrary}.

Lemma in_seqZ (low high v : Z) : 0 <= low -> (In v (seqZ low high) <-> low <= v <= high).
Proof.
  intros Hl. unfold seqZ. rewrite in_map_iff. split.
  - intros [n [<- Hn]]. apply in_seq in Hn. lia.
  - intros Hv. exists (Z.to_nat v). split; [lia|]. apply in_seq. lia.
Qed.

(** The bounds of a well-formed segment are bytes, in order. *)
Lemma wellFormed_bounds (t : string) :
  illFormed t = false ->
  if isRange t then 0 <= lowOf t <= highOf t /\ highOf t <= 255
  else 0 <= boundValue t 0 <= 255.
Proof.
  unfold illFormed, notInteger, outsideByte, lowAboveHigh, numberTexts,
    lowOf, highOf, boundValue.
  destruct (isRange t); cbn [andb filter].
  - destruct (String.eqb (lowText t) EmptyString),
             (String.eqb (highText t) EmptyString); cbn [negb existsb orb];
      repeat match goal with
             | |- context [strconv.Atoi ?x] => destruct (strconv.Atoi x)
             end; cbn [orb]; rewrite ?orb_true_r; try discriminate;
      intros H; bool_bounds; lia.
  - cbn [existsb]. destruct (String.eqb t EmptyString);
      destruct (strconv.Atoi t); cbn [orb]; rewrite ?orb_true_r; try discriminate;
      intros H; bool_bounds; lia.
Qed.

Lemma in_valuesOf (t : string) (v : Z) :
  illFormed t = false ->
  (In v (valuesOf t)
   <-> if isRange t then lowOf t <= v <= highOf t else v = boundValue t 0).
Proof.
  intros H. apply wellFormed_bounds in H. unfold valuesOf.
  destruct (isRange t).
  - apply in_seqZ. lia.
  - cbn. split; [intros [<-|[]]; reflexivity | intros ->; now left].
Qed.

Lemma segments_wellFormed (line : string) (i : nat) (t : string) :
  existsb illFormed (allSegments line) = false ->
  In t (segmentsOf (nth i (strings.Split line ".") EmptyString)) ->
  (i < List.length (strings.Split line "."))%nat ->
  illFormed t = false.
Proof.
  intros Hall Hin Hi.
  destruct (illFormed t) eqn:Ht; [|reflexivity].
  assert (Hex : existsb illFormed (allSegments line) = true); [|congruence].
  apply existsb_exists. exists t. split; [|exact Ht].
  unfold allSegments. apply in_flat_map.
  exists (nth i (strings.Split line ".") EmptyString). split; [|exact Hin].
  now apply nth_In.
Qed.

Lemma parseNmapIPRange_Ok (fuel : nat) (line : string) (r : NmapIPRange) :
  parseNmapIPRange fuel line = Ok r ->
  List.length (strings.Split line ".") = 4%nat
  /\ existsb illFormed (allSegments line) = false
  /\ Raw r = line
  /\ forall i : nat, (i < 4)%nat ->
       get4 (Octets r) i = octetValues (nth i (strings.Split line ".") EmptyString).
Proof.
  intros Hp. pose proof (parseNmapIPRange_sound fuel line) as Hs. rewrite Hp in Hs.
  destruct Hs as [Hbad (p0 & p1 & p2 & p3 & Hsplit & ->)].
  rewrite Hsplit in *. cbn [List.length Nat.eqb negb orb] in Hbad.
  repeat split; auto.
  intros i Hi. destruct i as [|[|[|[|i]]]]; cbn; try reflexivity. lia.
Qed.

(** X13.  The rule that [parseNmapIPRange] returns keeps the text it was
    read from, and at each of its four positions it allows at least one
    value and only bytes (0..255). *)
Theorem parseNmapIPRange_allows_bytes (fuel : nat) (line : string) (r : NmapIPRange) :
  parseNmapIPRange fuel line = Ok r ->
  Raw r = line
  /\ forall i : nat, (i < 4)%nat ->
       get4 (Octets r) i <> []
       /\ forall v : Z, In v (get4 (Octets r) i) -> 0 <= v <= 255.
Proof.
  intros Hp. apply parseNmapIPRange_Ok in Hp as (H4 & Hall & Hraw & Hget).
  split; [exact Hraw|]. intros i Hi. rewrite (Hget i Hi).
  set (part := nth i (strings.Split line ".") EmptyString).
  assert (Hwf : forall t, In t (segmentsOf part) -> illFormed t = false).
  { intros t Hin. apply (segments_wellFormed line i t Hall Hin). lia. }
  split.
  - unfold octetValues, segmentsOf in *.
    pose proof (Split_nonempty part ",") as Hne.
    destruct (strings.Split part ",") as [|seg segs]; [contradiction|].
    cbn [map flat_map]. intros Happ. apply app_eq_nil in Happ as [Hv _].
    assert (Hseg : illFormed (strings_TrimSpace seg) = false) by (apply Hwf; now left).
    pose proof (wellFormed_bounds _ Hseg) as Hb.
    pose proof (in_valuesOf (strings_TrimSpace seg)
                  (if isRange (strings_TrimSpace seg)
                   then lowOf (strings_TrimSpace seg)
                   else boundValue (strings_TrimSpace seg) 0) Hseg) as Hin.
    rewrite Hv in Hin. destruct (isRange (strings_TrimSpace seg));
      apply Hin; [lia | reflexivity].
  - intros v Hv. unfold octetValues in Hv. apply in_flat_map in Hv as [t [Ht Hv]].
    pose proof (Hwf t Ht) as Hill. pose proof (wellFormed_bounds t Hill) as Hb.
    apply (in_valuesOf t v Hill) in Hv. destruct (isRange t); lia.
Qed.

(** X14.  What the rule read from a token matches: a 4-byte address is
    matched exactly when, at each position, some segment of the token's
    part allows the byte, a range by [low <= byte <= high] (a missing low
    bound being 0) and a literal by equality. *)
Theorem parseNmapIPRange_matches (fuel : nat) (line : string) (r : NmapIPRange)
    (ip : net.IP) :
  parseNmapIPRange fuel line = Ok r ->
  (nmapRangeMatches r ip = true
   <-> forall i : nat, (i < 4)%nat ->
         exists t : string,
           In t (segmentsOf (nth i (strings.Split line ".") EmptyString))
           /\ if isRange t then lowOf t <= nth i ip 0 <= highOf t
              else nth i ip 0 = boundValue t 0).
Proof.
  intros Hp. apply parseNmapIPRange_Ok in Hp as (H4 & Hall & Hraw & Hget).
  rewrite nmapRangeMatches_spec. split.
  - intros H i Hi. specialize (H i Hi). rewrite (Hget i Hi) in H.
    unfold octetValues in H. apply in_flat_map in H as [t [Ht Hv]].
    exists t. split; [exact Ht|].
    apply in_valuesOf; [|exact Hv].
    apply (segments_wellFormed line i t Hall Ht). lia.
  - intros H i Hi. destruct (H i Hi) as [t [Ht Hv]]. rewrite (Hget i Hi).
    unfold octetValues. apply in_flat_map. exists t. split; [exact Ht|].
    apply in_valuesOf; [|exact Hv].
    apply (segments_wellFormed line i t Hall Ht). lia.
Qed.

End OctetValues.

(** ** Rule files, the scope database and the loop over the targets *)

Section Program.

Context {lib : GoLibrary}.

Variable IP_String : net.IP -> string.
Variable strings_ToLower : string -> string.

(** [parseLine] never panics, and its only error is [ErrInvalidFormat]. *)
Lemma parseLine_outcomes (fuel : nat) (line : string) (isScope : bool) :
  match parseLine fuel line isScope with
  | Err e => e = ErrInvalidFormat
  | Panic => False
  | _ => True
  end.
Proof.
  assert (Htail : forall b, match parseLine_IP_URL line b with
                            | Err e => e = ErrInvalidFormat
                            | Panic | OutOfFuel => False
                            | Ok _ => True
                            end).
  { intros b. rewrite parseLine_IP_URL_lineURL.
    destruct (net_ParseIP line); [exact I|].
    destruct (lineURL line) as [u|]; [|reflexivity].
    unfold parseLine_URL. destruct (negb b).
    - now destruct (net_ParseIP (removePortFromHost u)).
    - now destruct (String.eqb (url.Path u) EmptyString
                    || String.eqb (url.Path u) "/"). }
  unfold parseLine. destruct isScope.
  2:{ specialize (Htail false). now destruct (parseLine_IP_URL line false). }
  destruct (strings.HasPrefix line "^" && strings.HasSuffix line "$").
  { now destruct (regexp_Compile line). }
  destruct (strings.Contains line "*").
  { now destruct (regexp_Compile _). }
  destruct (isNmapIPRange line).
  { pose proof (parseNmapIPRange_sound fuel line) as Hs.
    now destruct (parseNmapIPRange fuel line). }
  destruct (net_ParseCIDR line); [exact I|].
  specialize (Htail true). now destruct (parseLine_IP_URL line true).
Qed.

(** A target is classified or refused: the call returns. *)
Lemma parseLine_target_returns (fuel : nat) (line : string) :
  match parseLine fuel line false with
  | Ok _ | Err _ => True
  | _ => False
  end.
Proof.
  unfold parseLine. rewrite parseLine_IP_URL_lineURL.
  destruct (net_ParseIP line); [exact I|].
  destruct (lineURL line) as [u|]; [|exact I].
  unfold parseLine_URL; cbn [negb].
  now destruct (net_ParseIP (removePortFromHost u)).
Qed.

Lemma parseAllLines_loop_spec (fuel : nat) (lines : list string) (isScopes : bool)
    (parsed : list value) :
  match parseAllLines_loop fuel lines isScopes parsed with
  | Ok out => out = parsed ++ flat_map (classified fuel isScopes) lines
              /\ forall l, In l lines ->
                   classified fuel isScopes l = [] ->
                   parseLine fuel l isScopes = Err ErrInvalidFormat
  | OutOfFuel => exists l, In l lines /\ parseLine fuel l isScopes = OutOfFuel
  | _ => False
  end.
Proof.
  revert parsed; induction lines as [|line rest IH]; intros parsed;
    cbn [parseAllLines_loop flat_map].
  - rewrite app_nil_r. split; [reflexivity | intros l []].
  - unfold classified at 1 2.
    pose proof (parseLine_outcomes fuel line isScopes) as Ho.
    destruct (parseLine fuel line isScopes) as [v|e| |] eqn:Hp.
    + specialize (IH (parsed ++ [v])).
      destruct (parseAllLines_loop fuel rest isScopes (parsed ++ [v]));
        try contradiction.
      * destruct IH as [-> IH]. split; [now rewrite <- app_assoc|].
        intros l [<-|Hin] Hl; [|now apply IH].
        unfold classified in Hl. rewrite Hp in Hl. discriminate.
      * destruct IH as [l [Hin Hl]]. exists l. split; [now right | exact Hl].
    + specialize (IH parsed).
      destruct (parseAllLines_loop fuel rest isScopes parsed); try contradiction.
      * destruct IH as [-> IH]. split; [reflexivity|].
        intros l [<-|Hin] Hl; [now rewrite Ho in Hp | now apply IH].
      * destruct IH as [l [Hin Hl]]. exists l. split; [now right | exact Hl].
    + contradiction.
    + exists line. split; [now left | exact Hp].
Qed.

(** X15.  [parseAllLines] skips the lines that do not classify and keeps
    the values of the others in their order; it returns an error exactly
    when no line classifies, so also on an empty list of lines, and never a
    result without a value; it fails to return only when one of the lines
    does. *)
Theorem parseAllLines_spec (fuel : nat) (lines : list string) (isScopes : bool) :
  match parseAllLines fuel lines isScopes with
  | Ok parsed =>
      parsed <> [] /\ parsed = flat_map (classified fuel isScopes) lines
  | Err e =>
      e = "unable to parse any lines as scopes"
      /\ forall l, In l lines -> parseLine fuel l isScopes = Err ErrInvalidFormat
  | Panic => False
  | OutOfFuel => exists l, In l lines /\ parseLine fuel l isScopes = OutOfFuel
  end.
Proof.
  unfold parseAllLines.
  pose proof (parseAllLines_loop_spec fuel lines isScopes []) as H.
  destruct (parseAllLines_loop fuel lines isScopes []) as [out| | |];
    cbn [bind]; try contradiction; [|exact H].
  destruct H as [Hout Hskip]. cbn [app] in Hout.
  destruct out as [|v out]; cbn [List.length Nat.eqb].
  - split; [reflexivity|]. intros l Hin. apply Hskip; [exact Hin|].
    symmetry in Hout.
    assert (Hall : forall x, In x lines -> classified fuel isScopes x = []).
    { clear -Hout. induction lines as [|a lines IH]; intros x []; cbn in Hout;
        apply app_eq_nil in Hout as [Ha Hl]; subst; auto. }
    now apply Hall.
  - split; [discriminate | exact Hout].
Qed.

(** The detector never panics. *)
Lemma isAndroidPackageName_no_panic (fuel : nat) (chainMode : bool) (rawScope : string)
    (flag : bool) :
  isAndroidPackageName fuel chainMode rawScope flag <> Panic.
Proof.
  unfold isAndroidPackageName. destruct flag; [discriminate|].
  pose proof (parseLine_outcomes fuel rawScope true) as Ho.
  destruct (parseLine fuel rawScope true) as [v|e| |] eqn:Hp;
    try discriminate; try contradiction.
  apply parseLine_scope_inv in Hp. destruct v; try discriminate. contradiction.
Qed.

Lemma collectScopes_kept (fuel : nat) (chainMode : bool) (scopes : list Scope)
    (flag : bool) (lines : list string) :
  match collectScopes fuel chainMode scopes flag lines with
  | Ok out =>
      exists kept, out = lines ++ kept
                   /\ forall l, In l kept ->
                        exists s, In s scopes /\ isWebApplication s = true
                                  /\ Scope_Scope s = l
  | Panic => False
  | _ => True
  end.
Proof.
  revert lines; induction scopes as [|s rest IH]; intros lines; cbn [collectScopes].
  - exists []. split; [now rewrite app_nil_r | intros l []].
  - fold (isWebApplication s). destruct (isWebApplication s) eqn:Hw.
    + pose proof (isAndroidPackageName_no_panic fuel chainMode (Scope_Scope s) flag) as Hn.
      destruct (isAndroidPackageName fuel chainMode (Scope_Scope s) flag) as [b| | |];
        cbn [bind]; auto.
      specialize (IH (if negb b then lines ++ [Scope_Scope s] else lines)).
      destruct (collectScopes fuel chainMode rest flag _); auto.
      destruct IH as [kept [-> Hk]]. destruct b; cbn [negb].
      * exists kept. split; [reflexivity|]. intros l Hl.
        destruct (Hk l Hl) as [s' [Hin Hs']]. exists s'. split; [now right | exact Hs'].
      * exists (Scope_Scope s :: kept). split; [now rewrite <- app_assoc|].
        intros l [<-|Hl]; [exists s; split; [now left | auto]|].
        destruct (Hk l Hl) as [s' [Hin Hs']]. exists s'. split; [now right | exact Hs'].
    + specialize (IH lines).
      destruct (collectScopes fuel chainMode rest flag lines); auto.
      destruct IH as [kept [-> Hk]]. exists kept. split; [reflexivity|].
      intros l Hl. destruct (Hk l Hl) as [s' [Hin Hs']].
      exists s'. split; [now right | exact Hs'].
Qed.

(** X16.  When [getCompanyScopes] returns scopes, the in-scope list is not
    empty, and every line of either list is the non-empty text of a
    [web_application] entry of the corresponding list of the program; the
    out-of-scope list may be empty. *)
Theorem getCompanyScopes_lines (fuel : nat) (chainMode : bool) (firebountyJSON : Firebounty)
    (index : Z) (flag : bool) (inscopeLines noscopeLines : list string) :
  getCompanyScopes fuel chainMode firebountyJSON index flag
  = Ok (inscopeLines, noscopeLines) ->
  exists pgm,
    nth_error (Pgms firebountyJSON) (Z.to_nat index) = Some pgm
    /\ inscopeLines <> []
    /\ (forall l, In l inscopeLines ->
          l <> EmptyString
          /\ In {| Scope_Scope := l; Scope_type := "web_application" |} (In_scopes pgm))
    /\ (forall l, In l noscopeLines ->
          l <> EmptyString
          /\ In {| Scope_Scope := l; Scope_type := "web_application" |}
                (Out_of_scopes pgm)).
Proof.
  assert (Hentry : forall scopes l s,
            In s scopes -> isWebApplication s = true -> Scope_Scope s = l ->
            l <> EmptyString
            /\ In {| Scope_Scope := l; Scope_type := "web_application" |} scopes).
  { intros scopes l [txt ty] Hin Hw <-. unfold isWebApplication in Hw. cbn in *.
    apply andb_true_iff in Hw as [Hty Htxt].
    apply String.eqb_eq in Hty. apply negb_true_iff, String.eqb_neq in Htxt.
    subst ty. auto. }
  unfold getCompanyScopes. destruct (index <? 0); [discriminate|].
  destruct (nth_error (Pgms firebountyJSON) (Z.to_nat index)) as [pgm|]; [|discriminate].
  pose proof (collectScopes_kept fuel chainMode (In_scopes pgm) flag []) as Hin.
  destruct (collectScopes fuel chainMode (In_scopes pgm) flag []) as [ins| | |];
    cbn [bind]; try discriminate.
  destruct (List.length ins =? 0)%nat eqn:Hlen; [discriminate|].
  pose proof (collectScopes_kept fuel chainMode (Out_of_scopes pgm) flag []) as Hout.
  destruct (collectScopes fuel chainMode (Out_of_scopes pgm) flag []) as [nos| | |];
    cbn [bind]; try discriminate.
  intros H; inversion H; subst. exists pgm. split; [reflexivity|].
  destruct Hin as [ki [Ei Hki]]. destruct Hout as [ko [Eo Hko]]. cbn [app] in *.
  split; [now destruct inscopeLines|]. split.
  - intros l Hl. rewrite Ei in Hl.
    destruct (Hki l Hl) as [s [Hs [Hw He]]]. eapply Hentry; eauto.
  - intros l Hl. rewrite Eo in Hl.
    destruct (Hko l Hl) as [s [Hs [Hw He]]]. eapply Hentry; eauto.
Qed.

Lemma matchingCompanies_spec (pgms : list Program) (counter : Z) (company : string)
    (acc : list firebountySearchMatch) (m : firebountySearchMatch) :
  In m (matchingCompanies strings_ToLower pgms counter company acc)
  <-> In m acc
      \/ exists (k : nat) (pgm : Program),
           nth_error pgms k = Some pgm
           /\ strings.Contains (strings_ToLower (Name pgm)) company = true
           /\ m = {| companyIndex := counter + Z.of_nat k; companyName := Name pgm |}.
Proof.
  revert counter acc; induction pgms as [|pgm rest IH]; intros counter acc;
    cbn [matchingCompanies].
  - split; [auto|]. intros [H|(k & p & Hk & _)]; [exact H|]. now destruct k.
  - rewrite IH. split.
    + intros [Hacc|(k & p & Hk & Hc & ->)].
      * destruct (strings.Contains (strings_ToLower (Name pgm)) company) eqn:Hc;
          [|now left].
        apply in_app_or in Hacc as [Hacc|[<-|[]]]; [now left|].
        right. exists O, pgm. repeat split; auto. f_equal. lia.
      * right. exists (S k), p. repeat split; auto. f_equal. lia.
    + intros [Hacc|(k & p & Hk & Hc & ->)].
      * left. destruct (strings.Contains (strings_ToLower (Name pgm)) company);
          [apply in_or_app; now left | exact Hacc].
      * destruct k as [|k]; cbn in Hk.
        -- inversion Hk; subst p. left. rewrite Hc. apply in_or_app. right. left.
           f_equal. lia.
        -- right. exists k, p. repeat split; auto. f_equal. lia.
Qed.

(** X17.  The search of a company finds exactly the programs whose
    lower-cased name contains the text looked for, each with its name and
    with its index in the database: an index that is found is not negative
    and is the position of that program in the database, within its
    length. *)
Theorem matchingCompanies_indexes (firebountyJSON : Firebounty) (company : string)
    (m : firebountySearchMatch) :
  In m (matchingCompanies strings_ToLower (Pgms firebountyJSON) 0 company [])
  <-> exists pgm,
        0 <= companyIndex m < Z.of_nat (List.length (Pgms firebountyJSON))
        /\ nth_error (Pgms firebountyJSON) (Z.to_nat (companyIndex m)) = Some pgm
        /\ companyName m = Name pgm
        /\ strings.Contains (strings_ToLower (Name pgm)) company = true.
Proof.
  rewrite matchingCompanies_spec. split.
  - intros [[]|(k & pgm & Hk & Hc & ->)]. cbn [companyIndex companyName].
    exists pgm. replace (Z.to_nat (0 + Z.of_nat k)) with k by lia.
    assert (Hlt : (k < List.length (Pgms firebountyJSON))%nat).
    { apply nth_error_Some. now rewrite Hk. }
    repeat split; auto; lia.
  - intros (pgm & H0 & Hn & Hname & Hc). right.
    exists (Z.to_nat (companyIndex m)), pgm. repeat split; auto.
    destruct m as [i n]. cbn in *. subst n. f_equal. lia.
Qed.

End Program.

Section Targets.

Context {lib : GoLibrary}.

Variable IP_String : net.IP -> string.

Lemma readFileLines_loop_filter (rawLines lines : list string) :
  readFileLines_loop rawLines lines
  = lines ++ filter isRuleLine (map strings_TrimSpace rawLines).
Proof.
  revert lines; induction rawLines as [|raw rest IH]; intros lines;
    cbn [readFileLines_loop map filter].
  - now rewrite app_nil_r.
  - fold (isRuleLine (strings_TrimSpace raw)).
    destruct (isRuleLine (strings_TrimSpace raw)); rewrite IH;
      [now rewrite <- app_assoc | reflexivity].
Qed.

(** X18.  [readFileLines] fails only when the file cannot be read; the
    lines it returns are, in the order of the file, the trimmed lines
    that are not empty and begin neither with [#] nor with [//]: no blank
    line and no comment reaches the classifier. *)
Theorem readFileLines_lines (files : string -> option string) (filepath data : string) :
  files filepath = Some data ->
  exists lines,
    readFileLines files filepath = Some lines
    /\ lines = filter isRuleLine (map strings_TrimSpace (strings.Split data "010"))
    /\ forall l, In l lines ->
         l <> EmptyString /\ strings.HasPrefix l "#" = false
         /\ strings.HasPrefix l "//" = false
         /\ exists raw, In raw (strings.Split data "010") /\ l = strings_TrimSpace raw.
Proof.
  intros Hf. unfold readFileLines. rewrite Hf, readFileLines_loop_filter. cbn [app].
  eexists. split; [reflexivity|]. split; [reflexivity|].
  intros l Hl. apply filter_In in Hl as [Hin Hk]. unfold isRuleLine in Hk.
  apply andb_true_iff in Hk as [Hk H2]. apply andb_true_iff in Hk as [H0 H1].
  apply negb_true_iff in H0, H1, H2. apply String.eqb_neq in H0.
  apply in_map_iff in Hin as [raw [<- Hraw]]. eauto 6.
Qed.


(** X20.  Every line the loop writes comes from an input text that
    classifies as a target and does not match the out-of-scope rules; it is
    labelled in scope when the target matches the in-scope rules, and
    unsure when it does not, which happens only with [--include-unsure]. *)
Theorem scopeTargets_lines (fuel : nat) (inscopeScopes noscopeScopes : list value)
    (targetsInput : list string) (inscopeExplicitLevel noscopeExplicitLevel : Z)
    (includeUnsure outputDomainsOnly : bool) (out : list outputLine) (o : outputLine) :
  scopeTargets IP_String fuel inscopeScopes noscopeScopes targetsInput
               inscopeExplicitLevel noscopeExplicitLevel includeUnsure
               outputDomainsOnly = Ok out ->
  In o out ->
  exists (input : string) (parsedTarget : value),
    In input targetsInput
    /\ parseLine fuel input false = Ok parsedTarget
    /\ target o = outputTarget IP_String outputDomainsOnly parsedTarget input
    /\ isInscope noscopeScopes parsedTarget noscopeExplicitLevel = false
    /\ (label o = IN_SCOPE
        /\ isInscope inscopeScopes parsedTarget inscopeExplicitLevel = true
        \/ label o = UNSURE /\ includeUnsure = true
           /\ isInscope inscopeScopes parsedTarget inscopeExplicitLevel = false).
Proof.
  revert out; induction targetsInput as [|input rest IH]; intros out;
    cbn [scopeTargets].
  - intros H; inversion H. intros [].
  - assert (Hrest : forall out',
              scopeTargets IP_String fuel inscopeScopes noscopeScopes rest
                inscopeExplicitLevel noscopeExplicitLevel includeUnsure
                outputDomainsOnly = Ok out' ->
              In o out' ->
              exists input0 parsedTarget,
                In input0 (input :: rest)
                /\ parseLine fuel input0 false = Ok parsedTarget
                /\ target o = outputTarget IP_String outputDomainsOnly parsedTarget input0
                /\ isInscope noscopeScopes parsedTarget noscopeExplicitLevel = false
                /\ (label o = IN_SCOPE
                    /\ isInscope inscopeScopes parsedTarget inscopeExplicitLevel = true
                    \/ label o = UNSURE /\ includeUnsure = true
                       /\ isInscope inscopeScopes parsedTarget inscopeExplicitLevel
                          = false)).
    { intros out' Ho Hin. destruct (IH out' Ho Hin) as (i & v & Hi & Hrest).
      exists i, v. split; [now right | exact Hrest]. }
    destruct (parseLine fuel input false) as [v|e| |] eqn:Hp; try discriminate;
      [|apply Hrest].
    unfold parseScopes, isOutOfScope.
    destruct (isInscope noscopeScopes v noscopeExplicitLevel) eqn:Hno; cbn [negb];
      [apply Hrest|].
    destruct (isInscope inscopeScopes v inscopeExplicitLevel) eqn:Hin.
    + destruct (scopeTargets IP_String fuel inscopeScopes noscopeScopes rest
                  inscopeExplicitLevel noscopeExplicitLevel includeUnsure
                  outputDomainsOnly) as [out'| | |] eqn:Hs;
        cbn [bind andb]; try discriminate.
      intros H; inversion H; subst out. intros [<-|Ho]; [|now apply (Hrest out')].
      exists input, v. cbn [target label].
      split; [now left|]. repeat split; auto.
    + destruct includeUnsure; cbn [andb negb]; [|apply Hrest].
      destruct (scopeTargets IP_String fuel inscopeScopes noscopeScopes rest
                  inscopeExplicitLevel noscopeExplicitLevel true
                  outputDomainsOnly) as [out'| | |] eqn:Hs;
        cbn [bind andb]; try discriminate.
      intros H; inversion H; subst out. intros [<-|Ho]; [|now apply (Hrest out')].
      exists input, v. cbn [target label].
      split; [now left|]. repeat split; auto.
Qed.

End Targets.

(** ** The further properties at concrete inputs, on the sample library *)

Module MoreExamples.

#[local] Existing Instance Sample.library.

Import Sample.

(** X1 at the URL of the repository's own test of [removePortFromHost]. *)
Lemma removePortFromHost_strips_port_witness :
  url.Host (mkURL "https" "example.com:8080" "/path") = ("example.com" ++ ":8080")%string
  /\ url.allDigits "8080" = true
  /\ "8080" <> EmptyString
  /\ removePortFromHost (mkURL "https" "example.com:8080" "/path") = "example.com".
Proof.
  split; [reflexivity|]. split; [reflexivity|]. split; [discriminate|].
  apply (removePortFromHost_strips_port
           (mkURL "https" "example.com:8080" "/path") "example.com" "8080");
    [reflexivity | reflexivity | discriminate].
Defined.

(** X2 at a host that ends with a colon. *)
Lemma removePortFromHost_keeps_host_witness :
  url.Host (host "example.com:") = ("example.com" ++ ":")%string
  /\ strings.Count EmptyString ":" = 0
  /\ removePortFromHost (host "example.com:") = "example.com:".
Proof.
  split; [reflexivity|]. split; [reflexivity|].
  apply (proj2 (removePortFromHost_keeps_host (host "example.com:"))
               "example.com" EmptyString);
    [reflexivity | reflexivity | now left].
Defined.

(** X5 at [10.0.0-254.5,10]. *)
Lemma isNmapIPRange_four_parts_witness :
  isNmapIPRange "10.0.0-254.5,10" = true
  /\ List.length (strings.Split "10.0.0-254.5,10" ".") = 4%nat.
Proof.
  split; [reflexivity|].
  apply (proj1 (isNmapIPRange_four_parts "10.0.0-254.5,10" eq_refl)).
Defined.

(** X7 at the rule [example.com] and the target of the same host. *)
Lemma isInscope_stricter_level_witness :
  isInscope [str "example.com"] (ptrURL (host "example.com")) 3 = true
  /\ isInscope [str "example.com"] (ptrURL (host "example.com")) 2 = true.
Proof.
  split; [reflexivity|].
  apply (proj1 (isInscope_stricter_level [str "example.com"]
                                         (ptrURL (host "example.com")))).
  reflexivity.
Defined.

(** X9 at the text [example.com], at level 3. *)
Lemma listed_host_is_in_scope_witness :
  parseLine 0 "example.com" true = Ok (str "example.com")
  /\ parseLine 0 "example.com" false = Ok (ptrURL (host "example.com"))
  /\ In (str "example.com") [ptrIPNet net24; str "example.com"]
  /\ isInscope [ptrIPNet net24; str "example.com"] (ptrURL (host "example.com")) 3 = true.
Proof.
  split; [reflexivity|]. split; [reflexivity|]. split; [right; now left|].
  apply (listed_host_is_in_scope 0 0 "example.com" "example.com" (host "example.com")
                                 [ptrIPNet net24; str "example.com"] 3);
    [reflexivity | reflexivity | right; now left | right; now right].
Defined.

(** X10 at the text [10.0.0.5]. *)
Lemma listed_address_is_in_scope_witness :
  parseLine 0 "10.0.0.5" true = Ok (ptrIP ip_10_0_0_5)
  /\ parseLine 7 "10.0.0.5" false = Ok (ptrIP ip_10_0_0_5).
Proof.
  split; [reflexivity|].
  refine (proj1 (listed_address_is_in_scope 0 "10.0.0.5" ip_10_0_0_5 _) 7%nat).
  reflexivity.
Defined.

(** X11: the rule [https://10.0.0.1/] is the host rule [10.0.0.1], which
    does not match the target [https://10.0.0.1/x] at level 2. *)
Lemma numeric_host_rule_is_dead_witness :
  parseLine 0 "https://10.0.0.1/" true = Ok (str "10.0.0.1")
  /\ net_ParseIP "10.0.0.1" = Some (net.v4InV6Prefix ++ [10; 0; 0; 1])
  /\ parseLine 0 "https://10.0.0.1/x" false
     = Ok (ptrURLWithIPAddressHost
             {| rawURL := "https://10.0.0.1/x";
                IPhost := net.v4InV6Prefix ++ [10; 0; 0; 1] |})
  /\ isInscope [str "10.0.0.1"]
               (ptrURLWithIPAddressHost
                  {| rawURL := "https://10.0.0.1/x";
                     IPhost := net.v4InV6Prefix ++ [10; 0; 0; 1] |}) 2 = false.
Proof.
  split; [reflexivity|]. split; [reflexivity|]. split; [reflexivity|].
  apply (numeric_host_rule_is_dead 0 "https://10.0.0.1/x" "10.0.0.1"
           (net.v4InV6Prefix ++ [10; 0; 0; 1]));
    [reflexivity | reflexivity | now left].
Defined.

(** X12: a target inside the scope with a larger out-of-scope set is
    inside with the smaller one. *)
Lemma parseScopes_monotone_witness :
  fst (parseScopes [str "example.com"] ([str "internal.example.com"] ++ [ptrIPNet net24])
                   (ptrURL (host "www.example.com")) 1 1 false) = true
  /\ fst (parseScopes [str "example.com"] [str "internal.example.com"]
                      (ptrURL (host "www.example.com")) 1 1 false) = true.
Proof.
  split; [reflexivity|].
  apply (proj1 (parseScopes_monotone [str "example.com"] [str "internal.example.com"]
                  [ptrIPNet net24] (ptrURL (host "www.example.com")) 1 1 false)).
  reflexivity.
Defined.

(** X13 at [10.0.0-254.5,10]. *)
Lemma parseNmapIPRange_allows_bytes_witness :
  parseNmapIPRange 256 "10.0.0-254.5,10"
  = Ok {| Octets := ([10], [0], seqZ 0 254, [5; 10]); Raw := "10.0.0-254.5,10" |}
  /\ get4 ([10], [0], seqZ 0 254, [5; 10]) 2 <> [].
Proof.
  split; [reflexivity|].
  refine (proj1 (proj2 (parseNmapIPRange_allows_bytes 256 "10.0.0-254.5,10"
                          {| Octets := ([10], [0], seqZ 0 254, [5; 10]);
                             Raw := "10.0.0-254.5,10" |} _) 2%nat _));
    [reflexivity | auto].
Defined.

(** X14 at [10.0.0-254.5,10] and the address [10.0.7.10]. *)
Lemma parseNmapIPRange_matches_witness :
  parseNmapIPRange 256 "10.0.0-254.5,10"
  = Ok {| Octets := ([10], [0], seqZ 0 254, [5; 10]); Raw := "10.0.0-254.5,10" |}
  /\ forall i : nat, (i < 4)%nat ->
       exists t : string,
         In t (segmentsOf (nth i (strings.Split "10.0.0-254.5,10" ".") EmptyString))
         /\ if isRange t then lowOf t <= nth i [10; 0; 7; 10] 0 <= highOf t
            else nth i [10; 0; 7; 10] 0 = boundValue t 0.
Proof.
  split; [reflexivity|].
  refine (proj1 (parseNmapIPRange_matches 256 "10.0.0-254.5,10"
                   {| Octets := ([10], [0], seqZ 0 254, [5; 10]);
                      Raw := "10.0.0-254.5,10" |} [10; 0; 7; 10] _) _);
    reflexivity.
Defined.

(** X15 at a list with a rule and a text that is refused for its path. *)
Lemma parseAllLines_spec_witness :
  [str "example.com"] <> []
  /\ [str "example.com"]
     = flat_map (classified 0 true) ["example.com/admin"; "example.com"].
Proof. exact (parseAllLines_spec 0 ["example.com/admin"; "example.com"] true). Defined.

(** X16 at a program with one [web_application] entry and one other. *)
Lemma getCompanyScopes_lines_witness :
  getCompanyScopes 0 false
    {| Pgms := [program [webApplication "example.com";
                         {| Scope_Scope := "com.example.app";
                            Scope_type := "android_application" |}]] |} 0 false
  = Ok (["example.com"], [])
  /\ exists pgm,
       nth_error [program [webApplication "example.com";
                           {| Scope_Scope := "com.example.app";
                              Scope_type := "android_application" |}]]
                 (Z.to_nat 0) = Some pgm
       /\ ["example.com"] <> []
       /\ (forall l, In l ["example.com"] ->
             l <> EmptyString
             /\ In {| Scope_Scope := l; Scope_type := "web_application" |}
                   (In_scopes pgm))
       /\ (forall l, In l [] ->
             l <> EmptyString
             /\ In {| Scope_Scope := l; Scope_type := "web_application" |}
                   (Out_of_scopes pgm)).
Proof.
  split; [reflexivity|].
  apply (getCompanyScopes_lines 0 false
           {| Pgms := [program [webApplication "example.com";
                                {| Scope_Scope := "com.example.app";
                                   Scope_type := "android_application" |}]] |}
           0 false ["example.com"] []).
  reflexivity.
Defined.

(** X17 at a database of two programs, the second of which is found. *)
Lemma matchingCompanies_indexes_witness :
  In {| companyIndex := 1; companyName := "Acme Corp" |}
     (matchingCompanies asciiToLower
        [{| In_scopes := []; Out_of_scopes := []; Name := "Other" |};
         {| In_scopes := []; Out_of_scopes := []; Name := "Acme Corp" |}] 0 "acme" [])
  /\ exists pgm,
       0 <= 1 < 2
       /\ nth_error [{| In_scopes := []; Out_of_scopes := []; Name := "Other" |};
                     {| In_scopes := []; Out_of_scopes := []; Name := "Acme Corp" |}]
                    (Z.to_nat 1) = Some pgm
       /\ "Acme Corp" = Name pgm
       /\ strings.Contains (asciiToLower (Name pgm)) "acme" = true.
Proof.
  split; [now left|].
  apply (proj1 (matchingCompanies_indexes asciiToLower
                  {| Pgms := [{| In_scopes := []; Out_of_scopes := []; Name := "Other" |};
                              {| In_scopes := []; Out_of_scopes := [];
                                 Name := "Acme Corp" |}] |}
                  "acme" {| companyIndex := 1; companyName := "Acme Corp" |})).
  now left.
Defined.

(** X18 at a file of five lines: a comment, a rule with blanks around it,
    an empty line, a comment and a network. *)
Lemma readFileLines_lines_witness :
  (fun _ : string =>
     Some (String.concat (String "010" EmptyString)
             ["# scope"; "  example.com  "; EmptyString; "// old"; "10.0.0.0/24"]))
    ".inscope"
  = Some (String.concat (String "010" EmptyString)
            ["# scope"; "  example.com  "; EmptyString; "// old"; "10.0.0.0/24"])
  /\ readFileLines
       (fun _ : string =>
          Some (String.concat (String "010" EmptyString)
                  ["# scope"; "  example.com  "; EmptyString; "// old"; "10.0.0.0/24"]))
       ".inscope"
     = Some ["example.com"; "10.0.0.0/24"].
Proof.
  split; [reflexivity|].
  destruct (readFileLines_lines
              (fun _ : string =>
                 Some (String.concat (String "010" EmptyString)
                         ["# scope"; "  example.com  "; EmptyString; "// old";
                          "10.0.0.0/24"]))
              ".inscope" _ eq_refl) as [lines [Hread [-> _]]].
  exact Hread.
Defined.


(** X19 with [--hostnames-only] at the same inputs: the line is the host
    without its port. *)
Example scopeTargets_hostnames_only :
  scopeTargets (fun _ : net.IP => EmptyString) 0
               [str "example.com"] [str "internal.example.com"]
               ["internal.example.com"; "not a target"; "www.example.com:8443"]
               1 1 false true
  = Ok [{| label := IN_SCOPE; target := "www.example.com" |}].
Proof. reflexivity. Qed.

(** X20 at two targets, one of them out of scope. *)
Lemma scopeTargets_lines_witness :
  scopeTargets (fun _ : net.IP => EmptyString) 0
               [str "example.com"] [str "internal.example.com"]
               ["internal.example.com"; "www.example.com"] 1 1 false false
  = Ok [{| label := IN_SCOPE; target := "www.example.com" |}]
  /\ exists (input : string) (parsedTarget : value),
       In input ["internal.example.com"; "www.example.com"]
       /\ parseLine 0 input false = Ok parsedTarget
       /\ "www.example.com"
          = outputTarget (fun _ : net.IP => EmptyString) false parsedTarget input
       /\ isInscope [str "internal.example.com"] parsedTarget 1 = false
       /\ (IN_SCOPE = IN_SCOPE /\ isInscope [str "example.com"] parsedTarget 1 = true
           \/ IN_SCOPE = UNSURE /\ false = true
              /\ isInscope [str "example.com"] parsedTarget 1 = false).
Proof.
  split; [reflexivity|].
  apply (scopeTargets_lines (fun _ : net.IP => EmptyString) 0
           [str "example.com"] [str "internal.example.com"]
           ["internal.example.com"; "www.example.com"] 1 1 false false
           [{| label := IN_SCOPE; target := "www.example.com" |}]
           {| label := IN_SCOPE; target := "www.example.com" |});
    [reflexivity | now left].
Defined.

End MoreExamples.
